(** * Resume converter (server.js): structuring client and document renderer

    A shallow embedding of the two functions of [server.js] that carry the
    program's logic:

    - [generateWordDocument], which maps the structured resume record onto
      the ordered list of [Paragraph]s handed to the docx library, and
    - [callChatGPTAPI] (the specification's [structure]), which turns the
      reply of the remote completion endpoint into that record or into a
      thrown error.

    [render] is the block sequence of the document [generateWordDocument]
    builds.

    JavaScript exceptions are modelled by the [result] monad; a JSON object
    with optional keys is modelled by a record whose fields are [option]s
    ([None] stands for a key that is missing, [undefined] or [null]: every
    read of such a key in the source goes through [||], [&&], [?.] or a
    conditional, which do not tell these apart). *)

From Stdlib Require Import List String Ascii ZArith Bool Lia DecimalString.
Import ListNotations.

Local Open Scope string_scope.
Local Open Scope list_scope.
Local Open Scope Z_scope.

(** Template literals and string [+]: concatenation. *)
Infix "+++" := String.append (right associativity, at level 60).

(* ===================================================================== *)
(** * JavaScript values and control, as far as the program uses them      *)
(* ===================================================================== *)

(** The exceptions the modelled code can raise.  [TypeError] is a property
    read on [undefined]; [SyntaxError] is what [JSON.parse] throws;
    [Error message] is [new Error(message)]. *)
Inductive js_error : Type :=
| TypeError
| SyntaxError
| Error (message : string).

Inductive result (A : Type) : Type :=
| Ok (a : A)
| Throw (e : js_error).

Arguments Ok {A} a.
Arguments Throw {A} e.

Definition bind {A B : Type} (m : result A) (k : A -> result B) : result B :=
  match m with
  | Ok a => k a
  | Throw e => Throw e
  end.

Declare Scope js_scope.
Delimit Scope js_scope with js.
Notation "x <- m ;; k" := (bind m (fun x => k))
  (at level 61, m at next level, right associativity) : js_scope.
Local Open Scope js_scope.

(** [try { body } catch (e) { handler }] *)
Definition try_catch {A : Type} (body : result A) (handler : js_error -> result A)
  : result A :=
  match body with
  | Ok a => Ok a
  | Throw e => handler e
  end.

(** Truthiness of a string: only the empty string is falsy. *)
Definition truthy (s : string) : bool := negb (String.eqb s "").

(** [x || d] where [x] is a string-valued key that may be absent. *)
Definition or_default (x : option string) (d : string) : string :=
  match x with
  | Some s => if truthy s then s else d
  | None => d
  end.

(** [x || []] where [x] is an array-valued key that may be absent
    (an array, even an empty one, is truthy). *)
Definition or_empty {A : Type} (x : option (list A)) : list A :=
  match x with
  | Some l => l
  | None => []
  end.

(** [x.length] where [x] is an array-valued key: reading [length] of
    [undefined] throws. *)
Definition length_of {A : Type} (x : option (list A)) : result Z :=
  match x with
  | Some l => Ok (Z.of_nat (List.length l))
  | None => Throw TypeError
  end.

(** [x?.f] where [x] is an object-valued key that may be absent. *)
Definition opt_chain {A B : Type} (x : option A) (f : A -> option B) : option B :=
  match x with
  | Some a => f a
  | None => None
  end.

(** [Array.prototype.map]: the callback receives the element and its index,
    elements are visited in order and the first exception aborts the loop. *)
Fixpoint map_from {A B : Type} (callback : A -> Z -> result B) (index : Z)
  (l : list A) : result (list B) :=
  match l with
  | [] => Ok []
  | x :: l' =>
      y <- callback x index ;;
      ys <- map_from callback (index + 1) l' ;;
      Ok (y :: ys)
  end.

Definition Array_map {A B : Type} (callback : A -> Z -> result B) (l : list A)
  : result (list B) :=
  map_from callback 0 l.

(** [Array.prototype.flatMap]: map, then flatten one level. *)
Definition Array_flatMap {A B : Type} (callback : A -> Z -> result (list B))
  (l : list A) : result (list B) :=
  ls <- Array_map callback l ;;
  Ok (List.concat ls).

(** Decimal rendering of an integer inside a template literal. *)
Definition Number_toString (n : Z) : string :=
  NilZero.string_of_int (Z.to_int n).

(* ===================================================================== *)
(** * The docx objects the renderer builds                                *)
(* ===================================================================== *)

Inductive AlignmentType : Type := LEFT | CENTER | JUSTIFIED.

Inductive LevelFormat : Type := BULLET.

(** Options of [new TextRun({...})]; [bold] and [underline] are [true]
    exactly when the source gives the key ([bold: true], [underline: {}]). *)
Record TextRun : Type := mkTextRun {
  text : string;
  size : Z;
  bold : bool;
  underline : bool
}.

Record Spacing : Type := mkSpacing {
  before : option Z;
  after : option Z
}.

Record Numbering : Type := mkNumbering {
  reference : string;
  level : Z
}.

(** Options of [new Paragraph({...})]. *)
Record Paragraph : Type := mkParagraph {
  alignment : option AlignmentType;
  spacing : Spacing;
  numbering : option Numbering;
  children : list TextRun
}.

Record Indent : Type := mkIndent { indent_left : Z; indent_hanging : Z }.

Record NumberingLevel : Type := mkLevel {
  lvl : Z;
  format : LevelFormat;
  lvl_text : string;
  lvl_alignment : AlignmentType;
  indent : Indent
}.

Record NumberingConfig : Type := mkNumberingConfig {
  config_reference : string;
  levels : list NumberingLevel
}.

Record Margin : Type := mkMargin {
  margin_top : Z; margin_right : Z; margin_bottom : Z; margin_left : Z
}.

Record Section_ : Type := mkSection {
  page_margin : Margin;
  section_children : list Paragraph
}.

(** Options of [new Document({...})]. *)
Record Document : Type := mkDocument {
  numbering_config : list NumberingConfig;
  sections : list Section_
}.

(* ===================================================================== *)
(** * The structured record                                               *)
(* ===================================================================== *)

Record Job : Type := mkJob {
  title : option string;
  dates : option string;
  company : option string;
  responsibilities : option (list string)
}.

Record Education : Type := mkEducation {
  degree : option string;
  institution : option string;
  year : option string
}.

Record Skills : Type := mkSkills {
  technical : option string;
  core : option string
}.

Record Personal : Type := mkPersonal {
  nationality : option string;
  languages : option string;
  visaStatus : option string;
  other : option (list string)
}.

Record ResumeRecord : Type := mkResumeRecord {
  name : option string;
  location : option string;
  phone : option string;
  email : option string;
  summary : option (list string);
  experience : option (list Job);
  education : option (list Education);
  certifications : option (list string);
  achievements : option (list string);
  skills : option Skills;
  personal : option Personal
}.

(* ===================================================================== *)
(** * generateWordDocument                                                *)
(* ===================================================================== *)

(** [new TextRun({ text, size: 22 })] *)
Definition run (t : string) : TextRun := mkTextRun t 22 false false.

(** [new TextRun({ text, bold: true, size: 22 })] *)
Definition bold_run (t : string) : TextRun := mkTextRun t 22 true false.

(** The section headers: [spacing: { before: 120, after: 120 }] and one
    bold run of size 24. *)
Definition header (label : string) : Paragraph :=
  mkParagraph None (mkSpacing (Some 120) (Some 120)) None
    [mkTextRun label 24 true false].

(** The bulleted blocks: [numbering: { reference: "bullet-list", level: 0 }]
    and one plain run. *)
Definition bullet (space_after : Z) (t : string) : Paragraph :=
  mkParagraph None (mkSpacing None (Some space_after))
    (Some (mkNumbering "bullet-list" 0)) [run t].

(** The literal run of blanks that shifts the dates to the right. *)
Definition dates_padding : string :=
  "                                         ".

(** Lines 277-288: the callback of [(data.summary || []).map]. *)
Definition summary_paragraph (data : ResumeRecord) (para : string) (index : Z)
  : result Paragraph :=
  len <- length_of (summary data) ;;
  Ok (mkParagraph (Some JUSTIFIED)
        (mkSpacing None (Some (if index =? len - 1 then 240 else 120)))
        None [run para]).

(** Lines 327-341: the callback of [(job.responsibilities || []).map].
    [&&] reads [data.experience.length] only when its first operand holds;
    the conditional binds weaker than [&&]. *)
Definition responsibility_paragraph (data : ResumeRecord) (job : Job)
  (jobIndex : Z) (resp : string) (respIndex : Z) : result Paragraph :=
  respLen <- length_of (responsibilities job) ;;
  space <- (if respIndex =? respLen - 1
            then expLen <- length_of (experience data) ;;
                 Ok (if jobIndex <? expLen - 1 then 120 else 60)
            else Ok 60) ;;
  Ok (bullet space resp).

(** Lines 304-326: the title and dates line and the company line of a
    job. *)
Definition job_heading (job : Job) : list Paragraph :=
  [ mkParagraph None (mkSpacing None (Some 60)) None
      [ bold_run (or_default (title job) "Job Title");
        run (dates_padding +++ or_default (dates job) "Dates") ];
    mkParagraph None (mkSpacing None (Some 80)) None
      [ run (or_default (company job) "Company Name") ] ].

(** Lines 303-342: the callback of [(data.experience || []).flatMap]. *)
Definition job_paragraphs (data : ResumeRecord) (job : Job) (jobIndex : Z)
  : result (list Paragraph) :=
  resps <- Array_map (responsibility_paragraph data job jobIndex)
             (or_empty (responsibilities job)) ;;
  Ok (job_heading job ++ resps).

(** Lines 357-377: the callback of [(data.education || []).flatMap]. *)
Definition education_paragraphs (data : ResumeRecord) (edu : Education)
  (index : Z) : result (list Paragraph) :=
  len <- length_of (education data) ;;
  Ok [ mkParagraph None (mkSpacing None (Some 60)) None
         [ bold_run (or_default (degree edu) "Degree") ];
       mkParagraph None
         (mkSpacing None (Some (if index =? len - 1 then 180 else 120))) None
         [ run (or_default (institution edu) "Institution" +++ " | "
                +++ or_default (year edu) "Year") ] ].

(** Lines 391-402 and 417-428, the callback shared by the certifications
    and the achievements sections: [entries.map((item, index) => bullet,
    after: index === entries.length - 1 ? 180 : 60)]. *)
Definition closing_bullet (entries : option (list string)) (item : string)
  (index : Z) : result Paragraph :=
  len <- length_of entries ;;
  Ok (bullet (if index =? len - 1 then 180 else 60) item).

(** Lines 380-403 and 406-429:
    [...(entries && entries.length > 0 ? [header, ...entries.map(...)] : [])] *)
Definition optional_section (label : string) (entries : option (list string))
  : result (list Paragraph) :=
  match entries with
  | None => Ok []
  | Some l =>
      if Z.of_nat (List.length l) >? 0
      then items <- Array_map (closing_bullet entries) l ;;
           Ok (header label :: items)
      else Ok []
  end.

(** Lines 494-517: [...(value ? [bullet `label${value}`] : [])] for
    [data.personal?.languages] and [data.personal?.visaStatus]. *)
Definition optional_detail (label : string) (value : option string)
  : list Paragraph :=
  match value with
  | Some v => if truthy v then [bullet 60 (label +++ v)] else []
  | None => []
  end.

(** Lines 238-274: the name, contact and email blocks. *)
Definition heading_blocks (data : ResumeRecord) : list Paragraph :=
  [ mkParagraph (Some CENTER) (mkSpacing None (Some 100)) None
      [ mkTextRun (or_default (name data) "NAME") 32 true false ];
    mkParagraph (Some CENTER) (mkSpacing None (Some 50)) None
      [ run (or_default (location data) "Location" +++ "|"
             +++ or_default (phone data) "Phone") ];
    mkParagraph (Some CENTER) (mkSpacing None (Some 200)) None
      [ mkTextRun (or_default (email data) "email@example.com") 22 false true ] ].

(** Lines 431-493: the skills section and the start of the personal
    details. *)
Definition skills_blocks (data : ResumeRecord) : list Paragraph :=
  [ header "SKILLS";
    mkParagraph (Some JUSTIFIED) (mkSpacing None (Some 100)) None
      [ bold_run "Technical skills: ";
        run (or_default (opt_chain (skills data) technical)
               "Skills to be added") ];
    mkParagraph (Some JUSTIFIED) (mkSpacing None (Some 180)) None
      [ bold_run "Core competencies: ";
        run (or_default (opt_chain (skills data) core)
               "Competencies to be added") ];
    header "PERSONAL DETAILS";
    bullet 60 ("Nationality: "
               +++ or_default (opt_chain (personal data) nationality)
                     "To be added") ].

(** Lines 237-530: the [children] array of the document's only section,
    element by element in source order. *)
Definition documentChildren (data : ResumeRecord) : result (list Paragraph) :=
  summaryBlocks <- Array_map (summary_paragraph data) (or_empty (summary data)) ;;
  jobBlocks <- Array_flatMap (job_paragraphs data) (or_empty (experience data)) ;;
  educationBlocks <-
    Array_flatMap (education_paragraphs data) (or_empty (education data)) ;;
  certificationBlocks <- optional_section "CERTIFICATIONS" (certifications data) ;;
  achievementBlocks <- optional_section "KEY ACHIEVEMENTS" (achievements data) ;;
  otherBlocks <-
    Array_map (fun detail (_ : Z) => Ok (bullet 60 detail))
      (or_empty (opt_chain (personal data) other)) ;;
  Ok (heading_blocks data
      ++ summaryBlocks
      ++ [ header "EXPERIENCE" ]
      ++ jobBlocks
      ++ [ header "EDUCATON" ]
      ++ educationBlocks
      ++ certificationBlocks
      ++ achievementBlocks
      ++ skills_blocks data
      ++ optional_detail "Languages: " (opt_chain (personal data) languages)
      ++ optional_detail "Visa Status: " (opt_chain (personal data) visaStatus)
      ++ otherBlocks).

(** The bullet glyph of the list style, byte for byte as the source file
    has it (the UTF-8 bytes c3 a2 e2 82 ac c2 a2). *)
Definition bullet_glyph : string :=
  string_of_list_ascii
    (List.map ascii_of_nat [195; 162; 226; 130; 172; 194; 162]%nat).

Definition bullet_list : NumberingConfig :=
  mkNumberingConfig "bullet-list"
    [mkLevel 0 BULLET bullet_glyph LEFT (mkIndent 720 360)].

(** Lines 213-535: [generateWordDocument] up to the call of
    [Packer.toBuffer], which is the docx library's serialisation of the
    [Document] built here. *)
Definition generateWordDocument (data : ResumeRecord) : result Document :=
  blocks <- documentChildren data ;;
  Ok (mkDocument [bullet_list]
        [mkSection (mkMargin 1440 1440 1440 1440) blocks]).

(** The block sequence of the rendered document: the paragraphs of the
    sections of the document, in order. *)
Definition render (data : ResumeRecord) : result (list Paragraph) :=
  doc <- generateWordDocument data ;;
  Ok (List.concat (List.map section_children (sections doc))).

(* ===================================================================== *)
(** * callChatGPTAPI                                                      *)
(* ===================================================================== *)

(** The reply of the completion endpoint, as far as the code reads it.
    The body is the object [response.json()] resolves to: an error reply
    is read through [errorData.error?.message], a completion through
    [data.choices[0].message.content].  The message of an error and the
    content of a choice are strings, as the endpoint documents them. *)
Record ApiError : Type := mkApiError {
  message : option string
}.

Record Message : Type := mkMessage {
  content : string
}.

Record Choice : Type := mkChoice {
  choice_message : option Message
}.

Record ResponseBody : Type := mkResponseBody {
  error : option ApiError;
  choices : option (list Choice)
}.

(** What [fetch] resolved to.  [json] is the outcome of [response.json()],
    which throws when the body is not JSON. *)
Record Response : Type := mkResponse {
  ok : bool;
  status : Z;
  json : result ResponseBody
}.

(** Line 192, [data.choices[0].message.content]: each read of a property
    of [undefined] throws. *)
Definition first_choice_content (data : ResponseBody) : result string :=
  match choices data with
  | None => Throw TypeError
  | Some cs =>
      match nth_error cs 0 with
      | None => Throw TypeError
      | Some choice =>
          match choice_message choice with
          | None => Throw TypeError
          | Some m => Ok (content m)
          end
      end
  end.

(** ** The pattern [/\{[\s\S]*\}/] of line 199

    [String.prototype.match] returns the leftmost match, and [*] is greedy.
    The class [[\s\S]] accepts every character; the braces are ASCII, so
    matching on the bytes of the UTF-8 text finds the same span. *)

(** [[\s\S]*\}] tried at the start of [s]: the longest prefix of [s] that
    ends with a closing brace. *)
Fixpoint longest_closing (s : string) : option string :=
  match s with
  | EmptyString => None
  | String c s' =>
      match longest_closing s' with
      | Some p => Some (String c p)
      | None => if Ascii.eqb c "}" then Some (String c EmptyString) else None
      end
  end.

(** The whole pattern tried at each start position from the left. *)
Fixpoint match_braces (s : string) : option string :=
  match s with
  | EmptyString => None
  | String c s' =>
      if Ascii.eqb c "{"
      then match longest_closing s' with
           | Some p => Some (String c p)
           | None => match_braces s'
           end
      else match_braces s'
  end.

Section StructuringClient.

(** [JSON.parse] is the engine's: the values it builds and the texts it
    accepts are parameters; [None] is a thrown [SyntaxError]. *)
Variable JSONValue : Type.
Variable JSON_parse : string -> option JSONValue.

Definition JSON_parse_or_throw (t : string) : result JSONValue :=
  match JSON_parse t with
  | Some v => Ok v
  | None => Throw SyntaxError
  end.

(** Lines 194-204: the inner [try]/[catch] around [JSON.parse]. *)
Definition parse_reply (responseText : string) : result JSONValue :=
  try_catch (JSON_parse_or_throw responseText)
    (fun _ =>
       match match_braces responseText with
       | Some jsonMatch => JSON_parse_or_throw jsonMatch
       | None => Throw (Error "Failed to parse ChatGPT response as JSON")
       end).

(** Lines 185-209: [callChatGPTAPI] from the point where [fetch] has
    resolved to [response]; the outer [catch] logs and rethrows, which
    leaves the outcome as it is. *)
Definition callChatGPTAPI (response : Response) : result JSONValue :=
  try_catch
    (if negb (ok response)
     then
       errorData <- json response ;;
       let errorMessage :=
         or_default (opt_chain (error errorData) message)
           ("HTTP " +++ Number_toString (status response)) in
       Throw (Error ("ChatGPT API error: " +++ errorMessage))
     else
       data <- json response ;;
       responseText <- first_choice_content data ;;
       parse_reply responseText)
    (fun e => Throw e).

End StructuringClient.

Arguments JSON_parse_or_throw {JSONValue} JSON_parse t.
Arguments parse_reply {JSONValue} JSON_parse responseText.
Arguments callChatGPTAPI {JSONValue} JSON_parse response.

(** A completion whose first choice carries [responseText]. *)
Definition completion (responseText : string) : Response :=
  mkResponse true 200
    (Ok (mkResponseBody None (Some [mkChoice (Some (mkMessage responseText))]))).

(** [String.prototype.includes] *)
Definition includes (s sub : string) : bool :=
  match String.index 0 sub s with
  | Some _ => true
  | None => false
  end.

(* ===================================================================== *)
(** * A reference JSON.parse                                              *)
(* ===================================================================== *)

(** A recursive-descent recogniser of the JSON grammar (ECMA-404), used
    where a statement about [callChatGPTAPI] is run on a concrete text.
    It builds the parse tree: a string or a number carries its lexeme, as
    nothing in the program depends on which value the lexeme denotes. *)
Module Json.

Unset Elimination Schemes.
Inductive value : Type :=
| Null
| Bool (b : bool)
| Number (lexeme : string)
| Str (lexeme : string)
| Array (elements : list value)
| Object (members : list (string * value)).
Set Elimination Schemes.

Definition is_ws (c : ascii) : bool :=
  let n := nat_of_ascii c in
  (Nat.eqb n 32 || Nat.eqb n 9 || Nat.eqb n 10 || Nat.eqb n 13)%bool.

Definition is_digit (c : ascii) : bool :=
  let n := nat_of_ascii c in (Nat.leb 48 n && Nat.leb n 57)%bool.

Definition is_hex (c : ascii) : bool :=
  let n := nat_of_ascii c in
  (is_digit c || (Nat.leb 65 n && Nat.leb n 70)
   || (Nat.leb 97 n && Nat.leb n 102))%bool.

Definition is_escape (c : ascii) : bool :=
  existsb (Ascii.eqb c) (list_ascii_of_string "\/bfnrt")
  || Nat.eqb (nat_of_ascii c) 34.

Fixpoint skip_ws (s : string) : string :=
  match s with
  | String c s' => if is_ws c then skip_ws s' else s
  | EmptyString => s
  end.

(** The digits at the start of [s], and what follows them. *)
Fixpoint digits (s : string) : string * string :=
  match s with
  | String c s' =>
      if is_digit c
      then let (d, r) := digits s' in (String c d, r)
      else (EmptyString, s)
  | EmptyString => (EmptyString, s)
  end.

(** The characters of a string after its opening quote, up to and
    without the closing quote. *)
Fixpoint string_body (s : string) : option (string * string) :=
  match s with
  | EmptyString => None
  | String c s' =>
      if Nat.eqb (nat_of_ascii c) 34 then Some (EmptyString, s')
      else if Nat.ltb (nat_of_ascii c) 32 then None
      else if Ascii.eqb c "\" then
        match s' with
        | String "u" (String h1 (String h2 (String h3 (String h4 s'')))) =>
            if (is_hex h1 && is_hex h2 && is_hex h3 && is_hex h4)%bool
            then option_map
                   (fun '(b, r) =>
                      (String c (String "u" (String h1 (String h2
                         (String h3 (String h4 b))))), r))
                   (string_body s'')
            else None
        | String e s'' =>
            if is_escape e
            then option_map (fun '(b, r) => (String c (String e b), r))
                   (string_body s'')
            else None
        | EmptyString => None
        end
      else option_map (fun '(b, r) => (String c b, r)) (string_body s')
  end.

Fixpoint strip_prefix (p s : string) : option string :=
  match p, s with
  | EmptyString, _ => Some s
  | String a p', String b s' => if Ascii.eqb a b then strip_prefix p' s' else None
  | String _ _, EmptyString => None
  end.

(** [int]: a single [0], or a non-zero digit followed by digits. *)
Definition int_part (s : string) : option (string * string) :=
  match s with
  | String c s' =>
      if Ascii.eqb c "0" then Some (String c EmptyString, s')
      else if is_digit c then let (d, r) := digits s' in Some (String c d, r)
      else None
  | EmptyString => None
  end.

(** [frac]: nothing, or a point followed by at least one digit. *)
Definition frac_part (s : string) : option (string * string) :=
  match s with
  | String "." s' =>
      match digits s' with
      | (EmptyString, _) => None
      | (d, r) => Some (String "." d, r)
      end
  | _ => Some (EmptyString, s)
  end.

(** [exp]: nothing, or [e] or [E], an optional sign and at least one
    digit. *)
Definition exp_part (s : string) : option (string * string) :=
  match s with
  | String c s' =>
      if (Ascii.eqb c "e" || Ascii.eqb c "E")%bool then
        let (sign, s'') :=
          match s' with
          | String g t =>
              if (Ascii.eqb g "+" || Ascii.eqb g "-")%bool
              then (String g EmptyString, t) else (EmptyString, s')
          | EmptyString => (EmptyString, s')
          end in
        match digits s'' with
        | (EmptyString, _) => None
        | (d, r) => Some (String c (sign +++ d), r)
        end
      else Some (EmptyString, s)
  | EmptyString => Some (EmptyString, s)
  end.

Definition number (s : string) : option (string * string) :=
  let (minus, s0) :=
    match s with
    | String "-" t => ("-", t)
    | _ => (EmptyString, s)
    end in
  match int_part s0 with
  | None => None
  | Some (i, s1) =>
      match frac_part s1 with
      | None => None
      | Some (f, s2) =>
          match exp_part s2 with
          | None => None
          | Some (e, s3) => Some (minus +++ i +++ f +++ e, s3)
          end
      end
  end.

(** A value that is neither an object nor an array. *)
Definition scalar (s : string) : option (value * string) :=
  match s with
  | String c r =>
      if Nat.eqb (nat_of_ascii c) 34
      then option_map (fun '(b, r') => (Str b, r')) (string_body r)
      else
        match strip_prefix "true" s, strip_prefix "false" s,
              strip_prefix "null" s with
        | Some r', _, _ => Some (Bool true, r')
        | _, Some r', _ => Some (Bool false, r')
        | _, _, Some r' => Some (Null, r')
        | _, _, _ => option_map (fun '(n, r') => (Number n, r')) (number s)
        end
  | EmptyString => None
  end.

(** The parser proper.  Each function reads one value, or the rest of
    one array or object, from the start of [s] and returns it with the
    text that follows.  [fuel] bounds the number of nested calls; every
    second call at the latest is preceded by the consumption of a
    character. *)
Fixpoint parse_value (fuel : nat) (s : string) : option (value * string) :=
  match fuel with
  | O => None
  | S fuel' =>
      match skip_ws s with
      | String c r =>
          if Ascii.eqb c "{" then
            match skip_ws r with
            | String "}" r' => Some (Object [], r')
            | _ => parse_members fuel' r []
            end
          else if Ascii.eqb c "[" then
            match skip_ws r with
            | String "]" r' => Some (Array [], r')
            | _ => parse_elements fuel' r []
            end
          else scalar (String c r)
      | EmptyString => None
      end
  end
with parse_elements (fuel : nat) (s : string) (acc : list value)
  : option (value * string) :=
  match fuel with
  | O => None
  | S fuel' =>
      match parse_value fuel' s with
      | Some (v, r) =>
          match skip_ws r with
          | String "," r' => parse_elements fuel' r' (v :: acc)
          | String "]" r' => Some (Array (rev (v :: acc)), r')
          | _ => None
          end
      | None => None
      end
  end
with parse_members (fuel : nat) (s : string) (acc : list (string * value))
  : option (value * string) :=
  match fuel with
  | O => None
  | S fuel' =>
      match skip_ws s with
      | String c r =>
          if Nat.eqb (nat_of_ascii c) 34 then
            match string_body r with
            | Some (key, r1) =>
                match skip_ws r1 with
                | String ":" r2 =>
                    match parse_value fuel' r2 with
                    | Some (v, r3) =>
                        match skip_ws r3 with
                        | String "," r4 =>
                            parse_members fuel' r4 ((key, v) :: acc)
                        | String "}" r4 =>
                            Some (Object (rev ((key, v) :: acc)), r4)
                        | _ => None
                        end
                    | None => None
                    end
                | _ => None
                end
            | None => None
            end
          else None
      | EmptyString => None
      end
  end.

(** [JSON.parse]: one value, with nothing but white space around it. *)
Definition parse (t : string) : option value :=
  match parse_value (2 * String.length t + 2) t with
  | Some (v, r) =>
      match skip_ws r with
      | EmptyString => Some v
      | String _ _ => None
      end
  | None => None
  end.

End Json.

(* ===================================================================== *)
(** * The value of the renderer                                           *)
(* ===================================================================== *)

(** The value of [Array_map] when no call of the callback throws. *)
Fixpoint mapi_from {A B : Type} (g : A -> Z -> B) (index : Z) (l : list A)
  : list B :=
  match l with
  | [] => []
  | x :: l' => g x index :: mapi_from g (index + 1) l'
  end.

Definition mapi {A B : Type} (g : A -> Z -> B) (l : list A) : list B :=
  mapi_from g 0 l.

(** The length of an array-valued key read through [|| []]. *)
Definition array_length {A : Type} (x : option (list A)) : Z :=
  Z.of_nat (List.length (or_empty x)).

Definition summary_block (data : ResumeRecord) (para : string) (index : Z)
  : Paragraph :=
  mkParagraph (Some JUSTIFIED)
    (mkSpacing None
       (Some (if index =? array_length (summary data) - 1 then 240 else 120)))
    None [run para].

Definition responsibility_block (data : ResumeRecord) (job : Job)
  (jobIndex : Z) (resp : string) (respIndex : Z) : Paragraph :=
  bullet (if ((respIndex =? array_length (responsibilities job) - 1)
              && (jobIndex <? array_length (experience data) - 1))%bool
          then 120 else 60) resp.

Definition job_blocks (data : ResumeRecord) (job : Job) (jobIndex : Z)
  : list Paragraph :=
  job_heading job
  ++ mapi (responsibility_block data job jobIndex)
       (or_empty (responsibilities job)).

Definition education_blocks (data : ResumeRecord) (edu : Education) (index : Z)
  : list Paragraph :=
  [ mkParagraph None (mkSpacing None (Some 60)) None
      [ bold_run (or_default (degree edu) "Degree") ];
    mkParagraph None
      (mkSpacing None
         (Some (if index =? array_length (education data) - 1
                then 180 else 120))) None
      [ run (or_default (institution edu) "Institution" +++ " | "
             +++ or_default (year edu) "Year") ] ].

Definition closing_block (entries : option (list string)) (item : string)
  (index : Z) : Paragraph :=
  bullet (if index =? array_length entries - 1 then 180 else 60) item.

Definition section_blocks (label : string) (entries : option (list string))
  : list Paragraph :=
  match or_empty entries with
  | [] => []
  | l => header label :: mapi (closing_block entries) l
  end.

(** The block sequence [documentChildren] evaluates to (lemma
    [documentChildren_layout]). *)
Definition layout (data : ResumeRecord) : list Paragraph :=
  heading_blocks data
  ++ mapi (summary_block data) (or_empty (summary data))
  ++ [ header "EXPERIENCE" ]
  ++ List.concat (mapi (job_blocks data) (or_empty (experience data)))
  ++ [ header "EDUCATON" ]
  ++ List.concat (mapi (education_blocks data) (or_empty (education data)))
  ++ section_blocks "CERTIFICATIONS" (certifications data)
  ++ section_blocks "KEY ACHIEVEMENTS" (achievements data)
  ++ skills_blocks data
  ++ optional_detail "Languages: " (opt_chain (personal data) languages)
  ++ optional_detail "Visa Status: " (opt_chain (personal data) visaStatus)
  ++ List.map (bullet 60) (or_empty (opt_chain (personal data) other)).

(** The number of blocks a job contributes, and the place in the block
    sequence of responsibility [respIndex] of job [jobIndex]: after the
    three heading blocks, the summary, the EXPERIENCE header, the blocks of
    the earlier jobs and the two heading lines of the job itself. *)
Definition job_span (job : Job) : nat :=
  (2 + List.length (or_empty (responsibilities job)))%nat.

Definition responsibility_position (data : ResumeRecord)
  (jobIndex respIndex : nat) : nat :=
  (3 + List.length (or_empty (summary data)) + 1
   + list_sum (List.map job_span (firstn jobIndex (or_empty (experience data))))
   + 2 + respIndex)%nat.

(* ===================================================================== *)
(** * Records and replies used in the statements                          *)
(* ===================================================================== *)

(** Updates of one key of a record. *)
Definition with_summary (v : option (list string)) (d : ResumeRecord)
  : ResumeRecord :=
  mkResumeRecord (name d) (location d) (phone d) (email d) v (experience d)
    (education d) (certifications d) (achievements d) (skills d) (personal d).

Definition with_experience (v : option (list Job)) (d : ResumeRecord)
  : ResumeRecord :=
  mkResumeRecord (name d) (location d) (phone d) (email d) (summary d) v
    (education d) (certifications d) (achievements d) (skills d) (personal d).

Definition with_education (v : option (list Education)) (d : ResumeRecord)
  : ResumeRecord :=
  mkResumeRecord (name d) (location d) (phone d) (email d) (summary d)
    (experience d) v (certifications d) (achievements d) (skills d)
    (personal d).

Definition with_certifications (v : option (list string)) (d : ResumeRecord)
  : ResumeRecord :=
  mkResumeRecord (name d) (location d) (phone d) (email d) (summary d)
    (experience d) (education d) v (achievements d) (skills d) (personal d).

Definition with_achievements (v : option (list string)) (d : ResumeRecord)
  : ResumeRecord :=
  mkResumeRecord (name d) (location d) (phone d) (email d) (summary d)
    (experience d) (education d) (certifications d) v (skills d) (personal d).

Definition with_personal (v : option Personal) (d : ResumeRecord)
  : ResumeRecord :=
  mkResumeRecord (name d) (location d) (phone d) (email d) (summary d)
    (experience d) (education d) (certifications d) (achievements d)
    (skills d) v.

Definition with_responsibilities (v : option (list string)) (j : Job) : Job :=
  mkJob (title j) (dates j) (company j) v.



Definition with_other (v : option (list string)) (p : Personal) : Personal :=
  mkPersonal (nationality p) (languages p) (visaStatus p) v.

(** The record [{}]: every key absent. *)
Definition absent_record : ResumeRecord :=
  mkResumeRecord None None None None None None None None None None None.

(** [{name:"jane doe", summary:["a"], experience:[], education:[],
    skills:{}, personal:{}}] *)
Definition jane_doe : ResumeRecord :=
  mkResumeRecord (Some "jane doe") None None None (Some ["a"]) (Some [])
    (Some []) None None (Some (mkSkills None None))
    (Some (mkPersonal None None None None)).

(** A record with three jobs, the second without responsibilities. *)
Definition three_jobs : ResumeRecord :=
  mkResumeRecord (Some "A B") None None None (Some ["p1"; "p2"])
    (Some [ mkJob (Some "Engineer") (Some "2019 - 2021") (Some "Acme")
              (Some ["built"; "shipped"]);
            mkJob (Some "Intern") None None None;
            mkJob (Some "Lead") None (Some "Initech") (Some ["led"]) ])
    (Some [mkEducation (Some "BSc") (Some "MIT") (Some "2018")])
    (Some ["AWS"]) (Some []) None None.

(** Two records render without an exception and to the same block
    sequence. *)
Definition same_blocks (d1 d2 : ResumeRecord) : Prop :=
  exists blocks, render d1 = Ok blocks /\ render d2 = Ok blocks.

(** A block without [spacing.before]: every block but the section
    headers. *)
Definition plain (b : Paragraph) : Prop := before (spacing b) = None.

(** The trailing gap of a block is one of [gaps]. *)
Definition gap_in (gaps : list Z) (b : Paragraph) : Prop :=
  exists gap, after (spacing b) = Some gap /\ In gap gaps.

(** Every trailing gap written in [generateWordDocument]. *)
Definition trailing_gaps : list Z := [50; 60; 80; 100; 120; 180; 200; 240].

(** Membership in a literal list, and the trailing gap of a block that
    is written out. *)
Ltac in_literal := repeat first [left; reflexivity | right].

Ltac gap_literal :=
  unfold gap_in; cbn;
  repeat match goal with
         | |- context [if ?c then _ else _] => destruct c
         end;
  eexists; (split; [reflexivity | unfold trailing_gaps; in_literal]).

(** The double quote, and a string literal of a JSON text. *)
Definition dquote : string := String (ascii_of_nat 34) EmptyString.

Definition quoted (s : string) : string := dquote +++ s +++ dquote.

(** A reply that wraps the JSON object in prose. *)
Definition wrapped_reply : string :=
  "Here is the JSON: {" +++ quoted "name" +++ ":" +++ quoted "JANE DOE"
  +++ "} Hope this helps!".

(** A reply whose prose has a closing brace after the JSON object. *)
Definition stray_brace_reply : string :=
  "Result: {" +++ quoted "name" +++ ":" +++ quoted "JANE DOE"
  +++ "} (done :-})".

(** A reply with two JSON objects. *)
Definition two_objects_reply : string :=
  "{" +++ quoted "name" +++ ":" +++ quoted "JANE DOE" +++ "} and {"
  +++ quoted "name" +++ ":" +++ quoted "JOHN ROE" +++ "}".

(** The reply to a request with a wrong key: HTTP 401 and the error object
    of the endpoint. *)
Definition unauthorized : Response :=
  mkResponse false 401
    (Ok (mkResponseBody
           (Some (mkApiError (Some "Incorrect API key provided.")))
           None)).

(** [c] occurs in [s]. *)
Fixpoint occurs (c : ascii) (s : string) : bool :=
  match s with
  | EmptyString => false
  | String a s' => (Ascii.eqb a c || occurs c s')%bool
  end.

(** ** The span the specification describes

    Following the spec's words, "the first top-level [{...}] span": the
    text from the first opening brace to the closing brace that balances
    it.  [balance depth s] reads [s] inside [S depth] open braces and
    returns the text up to the brace that closes the outermost of them,
    with what follows it. *)
Fixpoint balance (depth : nat) (s : string) : option (string * string) :=
  match s with
  | EmptyString => None
  | String c s' =>
      if Ascii.eqb c "}" then
        match depth with
        | O => Some (String c EmptyString, s')
        | S d => option_map (fun '(p, r) => (String c p, r)) (balance d s')
        end
      else if Ascii.eqb c "{" then
        option_map (fun '(p, r) => (String c p, r)) (balance (S depth) s')
      else option_map (fun '(p, r) => (String c p, r)) (balance depth s')
  end.

Fixpoint first_top_level_span (s : string) : option (string * string) :=
  match s with
  | EmptyString => None
  | String c s' =>
      if Ascii.eqb c "{" then
        match balance 0 s' with
        | Some (p, r) => Some (String c p, r)
        | None => first_top_level_span s'
        end
      else first_top_level_span s'
  end.

(* ===================================================================== *)
(** * Further updates, positions and counts                               *)
(* ===================================================================== *)





Definition with_skills (v : option Skills) (d : ResumeRecord) : ResumeRecord :=
  mkResumeRecord (name d) (location d) (phone d) (email d) (summary d)
    (experience d) (education d) (certifications d) (achievements d) v
    (personal d).










(** The place of the title line of job [jobIndex], and of the degree line
    of education entry [index]. *)
Definition job_position (data : ResumeRecord) (jobIndex : nat) : nat :=
  (3 + List.length (or_empty (summary data)) + 1
   + list_sum (List.map job_span (firstn jobIndex (or_empty (experience data)))))%nat.

Definition education_header_position (data : ResumeRecord) : nat :=
  (3 + List.length (or_empty (summary data)) + 1
   + list_sum (List.map job_span (or_empty (experience data))))%nat.

Definition education_position (data : ResumeRecord) (index : nat) : nat :=
  (education_header_position data + 1 + 2 * index)%nat.

(** The number of blocks of an optional section and of an optional
    detail. *)
Definition section_count (entries : option (list string)) : nat :=
  match or_empty entries with
  | [] => 0
  | l => 1 + List.length l
  end%nat.

Definition detail_count (value : option string) : nat :=
  match value with
  | Some v => if truthy v then 1 else 0
  | None => 0
  end%nat.

Definition block_count (data : ResumeRecord) : nat :=
  (3 + List.length (or_empty (summary data))
   + 1 + list_sum (List.map job_span (or_empty (experience data)))
   + 1 + 2 * List.length (or_empty (education data))
   + section_count (certifications data)
   + section_count (achievements data)
   + 5
   + detail_count (opt_chain (personal data) languages)
   + detail_count (opt_chain (personal data) visaStatus)
   + List.length (or_empty (opt_chain (personal data) other)))%nat.

(** A block with [spacing.before]. *)
Definition headed (b : Paragraph) : bool :=
  match before (spacing b) with
  | Some _ => true
  | None => false
  end.

(** The header of an optional section, when the section is there. *)
Definition optional_header (label : string) (entries : option (list string))
  : list Paragraph :=
  match or_empty entries with
  | [] => []
  | _ => [header label]
  end.

(** The list style a paragraph refers to is defined by the document, with
    the level the paragraph asks for. *)
Definition resolves (doc : Document) (n : Numbering) : Prop :=
  exists cfg lv,
    In cfg (numbering_config doc) /\ config_reference cfg = reference n /\
    In lv (levels cfg) /\ lvl lv = level n.

(** A paragraph that is an item of the bullet list: no alignment, no
    [spacing.before], and one run of size 22, neither bold nor
    underlined. *)
Definition bullet_item (p : Paragraph) : Prop :=
  exists gap t, p = bullet gap t.

(** No run of the block is underlined. *)
Definition no_underline (b : Paragraph) : Prop :=
  forall r, In r (children b) -> underline r = false.

(** The shape of every block after the three heading blocks: not centred,
    no underlined run, and a list item whenever it refers to a list
    style. *)
Definition body_shape (b : Paragraph) : Prop :=
  alignment b <> Some CENTER /\ no_underline b /\
  (forall n, numbering b = Some n -> bullet_item b).

(* ===================================================================== *)
(** * The /convert endpoint                                               *)
(* ===================================================================== *)

(** ** The pattern [/\.[^/.]+$/] of line 103

    [originalname.replace(pattern, '')] removes the leftmost match; the
    pattern is anchored at the end of the name, so what is left is the
    name up to the start of the match.  The point and the slash are ASCII,
    so matching on the bytes of the UTF-8 name finds the same match. *)

(** [[^/.]] *)
Definition extension_char (c : ascii) : bool :=
  negb (Ascii.eqb c "/" || Ascii.eqb c ".").

(** [[^/.]*$] tried at the start of [s]. *)
Fixpoint extension_rest (s : string) : bool :=
  match s with
  | EmptyString => true
  | String c s' => (extension_char c && extension_rest s')%bool
  end.

(** [[^/.]+$] tried at the start of [s]. *)
Definition extension_tail (s : string) : bool :=
  match s with
  | EmptyString => false
  | String c s' => (extension_char c && extension_rest s')%bool
  end.

(** The whole pattern tried at each start position from the left, and the
    match replaced by the empty string. *)
Fixpoint strip_extension (s : string) : string :=
  match s with
  | EmptyString => EmptyString
  | String c s' =>
      if (Ascii.eqb c "." && extension_tail s')%bool
      then EmptyString
      else String c (strip_extension s')
  end.

Definition docx_mimetype : string :=
  "application/vnd.openxmlformats-officedocument.wordprocessingml.document".

(** The media types the handler has a branch for. *)
Definition supported (mimetype : string) : bool :=
  (String.eqb mimetype "application/pdf"
   || String.eqb mimetype docx_mimetype
   || String.eqb mimetype "application/msword"
   || String.eqb mimetype "text/plain")%bool.

Section Convert.

(** The collaborators of the handler.  [Buffer] is Node's byte buffer.
    [pdfParse] and [mammoth_extractRawText] stand for the text the two
    libraries extract ([(await pdfParse(b)).text],
    [(await mammoth.extractRawText({buffer: b})).value]) or the exception
    they throw; [fetch apiKey resumeText] for what the request of
    [callChatGPTAPI(apiKey, resumeText)] resolves to, or the exception of
    the transport; [generate] for [generateWordDocument] on the parsed
    reply, serialisation included; [res_set headers] for
    [res.set(headers)], which returns or throws (Node rejects a header
    value that has a character other than the tab, 0x20-0x7e and
    0x80-0xff); [engine_message] for the [message] of an exception that
    the engine or a library created. *)
Variable Buffer : Type.
Variable JSONValue : Type.
Variable JSON_parse : string -> option JSONValue.
Variable pdfParse : Buffer -> result string.
Variable mammoth_extractRawText : Buffer -> result string.
Variable Buffer_toString : Buffer -> string.
Variable fetch : string -> string -> result Response.
Variable generate : JSONValue -> result Buffer.
Variable res_set : list (string * string) -> result unit.
Variable engine_message : js_error -> string.

(** [req.file], as multer fills it. *)
Record UploadedFile : Type := mkUploadedFile {
  originalname : string;
  mimetype : string;
  buffer : Buffer
}.

(** [req.body.apiKey] and [req.file]. *)
Record Request : Type := mkRequest {
  apiKey : option string;
  file : option UploadedFile
}.

(** What the handler sends: [res.status(code).json({ error })], or, once
    [res.set(headers)] has returned, [res.send(body)] with these headers
    and the default status 200. *)
Inductive HttpReply : Type :=
| json_reply (code : Z) (error_text : string)
| send_reply (headers : list (string * string)) (body : Buffer).

Definition reply_status (r : HttpReply) : Z :=
  match r with
  | json_reply code _ => code
  | send_reply _ _ => 200
  end.

(** [error.message] *)
Definition message_of (e : js_error) : string :=
  match e with
  | Error m => m
  | _ => engine_message e
  end.

(** Lines 72-88: the text of the upload, or [None] where the handler
    returns the reply for an unsupported type. *)
Definition extract_text (f : UploadedFile) : result (option string) :=
  if String.eqb (mimetype f) "application/pdf" then
    t <- pdfParse (buffer f) ;; Ok (Some t)
  else if (String.eqb (mimetype f) docx_mimetype
           || String.eqb (mimetype f) "application/msword")%bool then
    t <- mammoth_extractRawText (buffer f) ;; Ok (Some t)
  else if String.eqb (mimetype f) "text/plain" then
    Ok (Some (Buffer_toString (buffer f)))
  else Ok None.

(** Lines 101-104: the headers handed to [res.set]. *)
Definition download_headers (f : UploadedFile) : list (string * string) :=
  [ ("Content-Type", docx_mimetype);
    ("Content-Disposition",
     "attachment; filename="
     +++ quoted (strip_extension (originalname f) +++ "_converted.docx")) ].

(** Lines 56-111: the handler of [POST /convert].  The call of [res.set]
    is inside the [try]: when it throws, the [catch] answers. *)
Definition convert (req : Request) : HttpReply :=
  match
    match file req with
    | None => Ok (json_reply 400 "No file uploaded")
    | Some f =>
        match apiKey req with
        | None => Ok (json_reply 400 "API key is required")
        | Some key =>
            if negb (truthy key)
            then Ok (json_reply 400 "API key is required")
            else
              extracted <- extract_text f ;;
              match extracted with
              | None => Ok (json_reply 400 "Unsupported file type")
              | Some resumeText =>
                  resumeData <-
                    (response <- fetch key resumeText ;;
                     callChatGPTAPI JSON_parse response) ;;
                  docBuffer <- generate resumeData ;;
                  _ <- res_set (download_headers f) ;;
                  Ok (send_reply (download_headers f) docBuffer)
              end
        end
    end
  with
  | Ok reply => reply
  | Throw e => json_reply 500 (message_of e)
  end.

End Convert.

Arguments mkUploadedFile {Buffer} originalname mimetype buffer.
Arguments originalname {Buffer} u.
Arguments mimetype {Buffer} u.
Arguments buffer {Buffer} u.
Arguments mkRequest {Buffer} apiKey file.
Arguments apiKey {Buffer} r.
Arguments file {Buffer} r.
Arguments json_reply {Buffer} code error_text.
Arguments send_reply {Buffer} headers body.
Arguments reply_status {Buffer} r.
Arguments extract_text {Buffer} pdfParse mammoth_extractRawText Buffer_toString f.
Arguments download_headers {Buffer} f.
Arguments convert {Buffer JSONValue} JSON_parse pdfParse mammoth_extractRawText
  Buffer_toString fetch generate res_set engine_message req.

(** An upload of plain text with a key; the buffer is its bytes. *)
Definition cv_upload : Request string :=
  mkRequest (Some "sk-test")
    (Some (mkUploadedFile "jane.doe.txt" "text/plain" "Jane Doe, engineer")).

(** Node's test of a header value, on the UTF-8 bytes of the value: the
    characters Node accepts are the tab, 0x20-0x7e, whose bytes are
    themselves, and 0x80-0xff, whose bytes are a lead byte 0xc2 or 0xc3
    and a continuation byte 0x80-0xbf; every other character has a byte
    below 0x20, the byte 0x7f, or a lead byte from 0xc4 on. *)
Definition node_header_value (v : string) : bool :=
  forallb
    (fun c => let n := nat_of_ascii c in
              (Nat.eqb n 9 || (Nat.leb 32 n && Nat.leb n 126)
               || (Nat.leb 128 n && Nat.leb n 195))%bool)
    (list_ascii_of_string v).

(** [res.set(headers)] with that test: a [TypeError] for the first value
    Node rejects. *)
Definition node_res_set (headers : list (string * string)) : result unit :=
  if forallb (fun h => node_header_value (snd h)) headers
  then Ok tt else Throw TypeError.

(** The handler with collaborators to run it on: the extractors return
    the bytes as text, every document is the two bytes "PK", and the
    completion endpoint is given by [fetch]. *)
Definition sample_convert (fetch : string -> string -> result Response)
  (req : Request string) : HttpReply string :=
  convert Json.parse (fun b => Ok b) (fun b => Ok b) (fun b => b) fetch
    (fun _ => Ok "PK") node_res_set (fun _ => "engine message") req.

(** An upload whose name is the euro sign (the UTF-8 bytes e2 82 ac)
    followed by [.txt]. *)
Definition euro_upload : Request string :=
  mkRequest (Some "sk-test")
    (Some (mkUploadedFile
             (String (ascii_of_nat 226)
                (String (ascii_of_nat 130)
                   (String (ascii_of_nat 172) ".txt")))
             "text/plain" "Jane Doe, engineer")).

(** A record with two certifications and one achievement. *)
Definition certified : ResumeRecord :=
  mkResumeRecord None None None None None None None
    (Some ["AWS"; "PMP"]) (Some ["Employee of the year"]) None None.

(** A record with personal details. *)
Definition with_details : ResumeRecord :=
  mkResumeRecord (Some "JANE DOE") None None None None None None None None
    None
    (Some (mkPersonal (Some "Indian") (Some "English, Hindi") (Some "")
             (Some ["Married"; "Driving licence"]))).

(** An endpoint that rejects the key, and one that answers with [text]. *)
Definition rejecting : string -> string -> result Response :=
  fun _ _ => Ok unauthorized.

Definition answering (text : string) : string -> string -> result Response :=
  fun _ _ => Ok (completion text).

(* ===================================================================== *)
(** * Properties of the array methods                                     *)
(* ===================================================================== *)

Section ArrayFacts.

Context {A B : Type}.

Lemma mapi_from_length (g : A -> Z -> B) (l : list A) :
  forall i, List.length (mapi_from g i l) = List.length l.
Proof.
  induction l as [|x l IH]; intros i; simpl; [reflexivity|].
  now rewrite IH.
Qed.

Lemma nth_error_mapi_from (g : A -> Z -> B) (l : list A) :
  forall i k x,
    nth_error l k = Some x ->
    nth_error (mapi_from g i l) k = Some (g x (i + Z.of_nat k)).
Proof.
  induction l as [|y l IH]; intros i k x Hk.
  - destruct k; discriminate.
  - destruct k as [|k]; simpl in *.
    + injection Hk as ->. now rewrite Z.add_0_r.
    + rewrite (IH (i + 1) k x Hk). do 2 f_equal. lia.
Qed.

(** A callback that returns on every element it is given makes the loop
    return, with the values of the callback in order. *)
Lemma map_from_ok (f : A -> Z -> result B) (g : A -> Z -> B) (l : list A) :
  forall i,
    (forall k x, nth_error l k = Some x ->
                 f x (i + Z.of_nat k) = Ok (g x (i + Z.of_nat k))) ->
    map_from f i l = Ok (mapi_from g i l).
Proof.
  induction l as [|y l IH]; intros i Hf; simpl; [reflexivity|].
  pose proof (Hf 0%nat y eq_refl) as H0.
  rewrite Z.add_0_r in H0. rewrite H0. simpl.
  rewrite (IH (i + 1)); [reflexivity|].
  intros k x Hk. specialize (Hf (S k) x Hk).
  now replace (i + 1 + Z.of_nat k) with (i + Z.of_nat (S k)) by lia.
Qed.

Lemma Array_map_ok (f : A -> Z -> result B) (g : A -> Z -> B) (l : list A) :
  (forall k x, nth_error l k = Some x ->
               f x (Z.of_nat k) = Ok (g x (Z.of_nat k))) ->
  Array_map f l = Ok (mapi g l).
Proof.
  intros Hf. apply map_from_ok. intros k x Hk. now apply Hf.
Qed.

Lemma mapi_from_const (h : A -> B) (l : list A) :
  forall i, mapi_from (fun x _ => h x) i l = List.map h l.
Proof.
  induction l as [|y l IH]; intros i; simpl; [reflexivity|].
  now rewrite IH.
Qed.

(** Two arrays whose elements give the same callback values at every
    index give the same result. *)
Lemma mapi_from_pointwise (g g' : A -> Z -> B) (l l' : list A) :
  Forall2 (fun x x' => forall i, g x i = g' x' i) l l' ->
  forall i, mapi_from g i l = mapi_from g' i l'.
Proof.
  induction 1 as [|x x' l l' Hx _ IH]; intros i; simpl; [reflexivity|].
  now rewrite Hx, IH.
Qed.

Lemma Forall_mapi_from (P : B -> Prop) (g : A -> Z -> B) (l : list A) :
  (forall x i, P (g x i)) -> forall i, Forall P (mapi_from g i l).
Proof.
  intros Hg. induction l as [|y l IH]; intros i; simpl; constructor; auto.
Qed.

End ArrayFacts.

Section FlatMapFacts.

Context {A B : Type}.

Lemma Array_flatMap_ok (f : A -> Z -> result (list B))
  (g : A -> Z -> list B) (l : list A) :
  (forall k x, nth_error l k = Some x ->
               f x (Z.of_nat k) = Ok (g x (Z.of_nat k))) ->
  Array_flatMap f l = Ok (List.concat (mapi g l)).
Proof.
  intros Hf. unfold Array_flatMap. now rewrite (Array_map_ok f g l Hf).
Qed.

Lemma nth_error_app_Some (l l' : list B) (n : nat) (x : B) :
  nth_error l n = Some x -> nth_error (l ++ l') n = Some x.
Proof.
  intros H. rewrite nth_error_app1; [exact H|].
  apply nth_error_Some. now rewrite H.
Qed.

Lemma nth_error_app_skip (l l' : list B) (n : nat) :
  nth_error (l ++ l') (List.length l + n) = nth_error l' n.
Proof.
  rewrite nth_error_app2 by lia. f_equal. lia.
Qed.

(** Entry [k] of the blocks built for element [j] sits in the flattened
    array after the blocks of the elements before [j]. *)
Lemma nth_error_concat_mapi_from (g : A -> Z -> list B) (span : A -> nat)
  (Hspan : forall x i, List.length (g x i) = span x) (l : list A) :
  forall i j x k y,
    nth_error l j = Some x ->
    nth_error (g x (i + Z.of_nat j)) k = Some y ->
    nth_error (List.concat (mapi_from g i l))
      (list_sum (List.map span (firstn j l)) + k) = Some y.
Proof.
  induction l as [|a l IH]; intros i j x k y Hj Hk.
  - destruct j; discriminate.
  - destruct j as [|j]; simpl in *.
    + injection Hj as ->. rewrite Z.add_0_r in Hk.
      now apply nth_error_app_Some.
    + rewrite <- (Hspan a i), <- Nat.add_assoc, nth_error_app_skip.
      apply (IH (i + 1) j x k y Hj).
      now replace (i + 1 + Z.of_nat j) with (i + Z.pos (Pos.of_succ_nat j)) by lia.
Qed.

Lemma Forall_concat (P : B -> Prop) (ls : list (list B)) :
  Forall (Forall P) ls -> Forall P (List.concat ls).
Proof.
  induction 1; simpl; [constructor|]. apply Forall_app; split; assumption.
Qed.

End FlatMapFacts.

(* ===================================================================== *)
(** * The renderer never throws                                           *)
(* ===================================================================== *)

(** A callback runs only on an element of the array, and an array that has
    an element is present: its [length] can be read. *)
Lemma length_of_element {A : Type} (x : option (list A)) (k : nat) (a : A) :
  nth_error (or_empty x) k = Some a -> length_of x = Ok (array_length x).
Proof.
  destruct x as [l|]; simpl; [reflexivity|].
  destruct k; discriminate.
Qed.

Lemma summary_paragraph_ok (data : ResumeRecord) (k : nat) (para : string) :
  nth_error (or_empty (summary data)) k = Some para ->
  forall index,
    summary_paragraph data para index = Ok (summary_block data para index).
Proof.
  intros Hk index. unfold summary_paragraph.
  now rewrite (length_of_element _ _ _ Hk).
Qed.

Lemma responsibility_paragraph_ok (data : ResumeRecord) (j k : nat)
  (job : Job) (resp : string) :
  nth_error (or_empty (experience data)) j = Some job ->
  nth_error (or_empty (responsibilities job)) k = Some resp ->
  forall jobIndex respIndex,
    responsibility_paragraph data job jobIndex resp respIndex
    = Ok (responsibility_block data job jobIndex resp respIndex).
Proof.
  intros Hj Hk jobIndex respIndex.
  unfold responsibility_paragraph, responsibility_block.
  rewrite (length_of_element _ _ _ Hk). simpl.
  destruct (respIndex =? array_length (responsibilities job) - 1); simpl.
  - now rewrite (length_of_element _ _ _ Hj).
  - reflexivity.
Qed.

Lemma job_paragraphs_ok (data : ResumeRecord) (j : nat) (job : Job) :
  nth_error (or_empty (experience data)) j = Some job ->
  forall jobIndex,
    job_paragraphs data job jobIndex = Ok (job_blocks data job jobIndex).
Proof.
  intros Hj jobIndex. unfold job_paragraphs, job_blocks.
  rewrite (Array_map_ok _ (responsibility_block data job jobIndex));
    [reflexivity|].
  intros k resp Hk. now apply (responsibility_paragraph_ok data j k).
Qed.

Lemma education_paragraphs_ok (data : ResumeRecord) (k : nat) (edu : Education) :
  nth_error (or_empty (education data)) k = Some edu ->
  forall index,
    education_paragraphs data edu index = Ok (education_blocks data edu index).
Proof.
  intros Hk index. unfold education_paragraphs.
  now rewrite (length_of_element _ _ _ Hk).
Qed.

Lemma optional_section_ok (label : string) (entries : option (list string)) :
  optional_section label entries = Ok (section_blocks label entries).
Proof.
  unfold optional_section, section_blocks.
  destruct entries as [[|item l]|]; try reflexivity.
  cbn [or_empty].
  replace (Z.of_nat (List.length (item :: l)) >? 0) with true
    by (symmetry; apply Z.gtb_lt; simpl; lia).
  rewrite (Array_map_ok _ (closing_block (Some (item :: l)))); [reflexivity|].
  intros k x Hk. unfold closing_bullet.
  now rewrite (length_of_element (Some (item :: l)) k x Hk).
Qed.

Lemma documentChildren_layout (data : ResumeRecord) :
  documentChildren data = Ok (layout data).
Proof.
  unfold documentChildren, layout.
  rewrite (Array_map_ok _ (summary_block data))
    by (intros k x Hk; now apply (summary_paragraph_ok data k)).
  cbn [bind].
  rewrite (Array_flatMap_ok _ (job_blocks data))
    by (intros k x Hk; now apply (job_paragraphs_ok data k)).
  cbn [bind].
  rewrite (Array_flatMap_ok _ (education_blocks data))
    by (intros k x Hk; now apply (education_paragraphs_ok data k)).
  cbn [bind].
  rewrite !optional_section_ok. cbn [bind].
  rewrite (Array_map_ok _ (fun detail (_ : Z) => bullet 60 detail))
    by reflexivity.
  cbn [bind]. unfold mapi at 4. now rewrite mapi_from_const.
Qed.

Lemma render_layout (data : ResumeRecord) : render data = Ok (layout data).
Proof.
  unfold render, generateWordDocument.
  rewrite documentChildren_layout. cbn. now rewrite app_nil_r.
Qed.

(* ===================================================================== *)
(** * Where a block sits in the sequence                                  *)
(* ===================================================================== *)

Lemma layout_heading (data : ResumeRecord) :
  firstn 3 (layout data) = heading_blocks data.
Proof. reflexivity. Qed.

(** Past the three heading blocks come the summary blocks. *)
Lemma layout_summary (data : ResumeRecord) (i : nat) (para : string) :
  nth_error (or_empty (summary data)) i = Some para ->
  nth_error (layout data) (3 + i)
  = Some (summary_block data para (Z.of_nat i)).
Proof.
  intros Hi. unfold layout.
  change (3 + i)%nat with (List.length (heading_blocks data) + i)%nat.
  rewrite nth_error_app_skip. apply nth_error_app_Some.
  apply (nth_error_mapi_from (summary_block data) _ 0 i para Hi).
Qed.

(** What follows the heading blocks and the summary blocks. *)
Lemma layout_after_summary (data : ResumeRecord) (n : nat) :
  nth_error (layout data) (3 + List.length (or_empty (summary data)) + n)
  = nth_error
      ([ header "EXPERIENCE" ]
       ++ List.concat (mapi (job_blocks data) (or_empty (experience data)))
       ++ [ header "EDUCATON" ]
       ++ List.concat (mapi (education_blocks data) (or_empty (education data)))
       ++ section_blocks "CERTIFICATIONS" (certifications data)
       ++ section_blocks "KEY ACHIEVEMENTS" (achievements data)
       ++ skills_blocks data
       ++ optional_detail "Languages: " (opt_chain (personal data) languages)
       ++ optional_detail "Visa Status: " (opt_chain (personal data) visaStatus)
       ++ List.map (bullet 60) (or_empty (opt_chain (personal data) other)))
      n.
Proof.
  unfold layout.
  replace (3 + List.length (or_empty (summary data)) + n)%nat
    with (List.length (heading_blocks data)
          + (List.length (mapi (summary_block data) (or_empty (summary data)))
             + n))%nat
    by (unfold mapi; rewrite mapi_from_length; simpl; lia).
  now rewrite !nth_error_app_skip.
Qed.

Lemma job_blocks_length (data : ResumeRecord) (job : Job) (jobIndex : Z) :
  List.length (job_blocks data job jobIndex) = job_span job.
Proof.
  unfold job_blocks, job_span, mapi.
  now rewrite length_app, mapi_from_length.
Qed.

Lemma layout_responsibility (data : ResumeRecord) (jobIndex respIndex : nat)
  (job : Job) (resp : string) :
  nth_error (or_empty (experience data)) jobIndex = Some job ->
  nth_error (or_empty (responsibilities job)) respIndex = Some resp ->
  nth_error (layout data) (responsibility_position data jobIndex respIndex)
  = Some (responsibility_block data job (Z.of_nat jobIndex) resp
            (Z.of_nat respIndex)).
Proof.
  intros Hj Hk. unfold responsibility_position.
  rewrite <- !Nat.add_assoc.
  rewrite (Nat.add_assoc 3), layout_after_summary.
  change (nth_error ([header "EXPERIENCE"] ++ ?l) (1 + ?n))
    with (nth_error l n).
  apply nth_error_app_Some.
  apply (nth_error_concat_mapi_from (job_blocks data) job_span
           (job_blocks_length data) _ 0 jobIndex job (2 + respIndex) _ Hj).
  unfold job_blocks.
  change (2 + respIndex)%nat
    with (List.length (job_heading job) + respIndex)%nat.
  rewrite nth_error_app_skip.
  apply (nth_error_mapi_from _ _ 0 respIndex resp Hk).
Qed.

(* ===================================================================== *)
(** * Spacing inside the summary and the experience section               *)
(* ===================================================================== *)

(** C1. For a record with experience list [jobs], a job [job] at
    [jobIndex] with responsibilities [resps] and a responsibility [resp]
    at [respIndex], render returns, and the block at the place of that
    responsibility is the list item of [resp] (style "bullet-list" at
    level 0, one plain run of size 22 with the text [resp]) whose trailing
    gap [spacing.after] is 60 when the responsibility is not the last of
    its job; for the last responsibility the gap is 120 exactly when
    another job follows, and 60 for the final job. *)
Theorem experience_spacing (data : ResumeRecord) (jobs : list Job)
  (jobIndex : nat) (job : Job) (resps : list string) (respIndex : nat)
  (resp : string) :
  experience data = Some jobs ->
  nth_error jobs jobIndex = Some job ->
  responsibilities job = Some resps ->
  nth_error resps respIndex = Some resp ->
  exists blocks gap,
    render data = Ok blocks /\
    nth_error blocks (responsibility_position data jobIndex respIndex)
    = Some (mkParagraph None (mkSpacing None (Some gap))
              (Some (mkNumbering "bullet-list" 0))
              [mkTextRun resp 22 false false]) /\
    ((S respIndex < List.length resps)%nat -> gap = 60) /\
    ((S respIndex = List.length resps)%nat ->
       (gap = 120 <-> (S jobIndex < List.length jobs)%nat) /\
       ((S jobIndex = List.length jobs)%nat -> gap = 60)).
Proof.
  intros Hexp Hj Hresps Hk.
  exists (layout data).
  exists (if ((Z.of_nat respIndex =? Z.of_nat (List.length resps) - 1)
              && (Z.of_nat jobIndex <? Z.of_nat (List.length jobs) - 1))%bool
          then 120 else 60).
  split; [apply render_layout|]. split.
  - rewrite (layout_responsibility data jobIndex respIndex job resp).
    + unfold responsibility_block, array_length.
      now rewrite Hresps, Hexp.
    + now rewrite Hexp.
    + now rewrite Hresps.
  - assert (Hjlt : (jobIndex < List.length jobs)%nat)
      by (apply nth_error_Some; now rewrite Hj).
    split; [|split; [split|]].
    + intros Hlt.
      destruct (Z.eqb_spec (Z.of_nat respIndex)
                  (Z.of_nat (List.length resps) - 1)); [lia|reflexivity].
    + intros Hgap.
      destruct (Z.ltb_spec (Z.of_nat jobIndex)
                  (Z.of_nat (List.length jobs) - 1)); [lia|].
      rewrite andb_false_r in Hgap. discriminate.
    + intros Hlt.
      destruct (Z.eqb_spec (Z.of_nat respIndex)
                  (Z.of_nat (List.length resps) - 1)); [|lia].
      destruct (Z.ltb_spec (Z.of_nat jobIndex)
                  (Z.of_nat (List.length jobs) - 1)); [reflexivity|lia].
    + intros Hlast.
      destruct (Z.ltb_spec (Z.of_nat jobIndex)
                  (Z.of_nat (List.length jobs) - 1)); [lia|].
      now rewrite andb_false_r.
Qed.

Lemma experience_spacing_witness :
  exists blocks,
    render three_jobs = Ok blocks /\
    nth_error blocks 8
    = Some (mkParagraph None (mkSpacing None (Some 60))
              (Some (mkNumbering "bullet-list" 0))
              [mkTextRun "built" 22 false false]) /\
    nth_error blocks 9
    = Some (mkParagraph None (mkSpacing None (Some 120))
              (Some (mkNumbering "bullet-list" 0))
              [mkTextRun "shipped" 22 false false]) /\
    nth_error blocks 14
    = Some (mkParagraph None (mkSpacing None (Some 60))
              (Some (mkNumbering "bullet-list" 0))
              [mkTextRun "led" 22 false false]).
Proof.
  pose (jobs := [ mkJob (Some "Engineer") (Some "2019 - 2021") (Some "Acme")
                    (Some ["built"; "shipped"]);
                  mkJob (Some "Intern") None None None;
                  mkJob (Some "Lead") None (Some "Initech") (Some ["led"]) ]).
  destruct (experience_spacing three_jobs jobs 0
              (mkJob (Some "Engineer") (Some "2019 - 2021") (Some "Acme")
                 (Some ["built"; "shipped"]))
              ["built"; "shipped"] 0 "built"
              eq_refl eq_refl eq_refl eq_refl)
    as (blocks & gap1 & Hrender & H1 & Hinner & _).
  destruct (experience_spacing three_jobs jobs 0
              (mkJob (Some "Engineer") (Some "2019 - 2021") (Some "Acme")
                 (Some ["built"; "shipped"]))
              ["built"; "shipped"] 1 "shipped"
              eq_refl eq_refl eq_refl eq_refl)
    as (blocks2 & gap2 & Hrender2 & H2 & _ & Hlast2).
  destruct (experience_spacing three_jobs jobs 2
              (mkJob (Some "Lead") None (Some "Initech") (Some ["led"]))
              ["led"] 0 "led"
              eq_refl eq_refl eq_refl eq_refl)
    as (blocks3 & gap3 & Hrender3 & H3 & _ & Hlast3).
  assert (E2 : blocks2 = blocks)
    by (rewrite Hrender in Hrender2; now injection Hrender2).
  assert (E3 : blocks3 = blocks)
    by (rewrite Hrender in Hrender3; now injection Hrender3).
  rewrite E2 in H2. rewrite E3 in H3.
  rewrite (Hinner (le_n 2)) in H1.
  rewrite (proj2 (proj1 (Hlast2 eq_refl)) (le_S 2 2 (le_n 2))) in H2.
  rewrite (proj2 (Hlast3 eq_refl) eq_refl) in H3.
  exists blocks. repeat split; assumption.
Defined.

(** C2. For a record whose summary is the sequence [paras] of N paragraph
    strings, render returns a sequence that starts with the three heading
    blocks, continues with one justified block per paragraph in input
    order, of trailing gap 120 for paragraphs 1..N-1 and 240 for paragraph
    N, and has the EXPERIENCE header right after these N blocks. *)
Theorem summary_spacing (data : ResumeRecord) (paras : list string) :
  summary data = Some paras ->
  exists blocks,
    render data = Ok blocks /\
    firstn 3 blocks = heading_blocks data /\
    (forall (i : nat) (para : string),
        nth_error paras i = Some para ->
        nth_error blocks (3 + i)
        = Some (mkParagraph (Some JUSTIFIED)
                  (mkSpacing None
                     (Some (if (S i =? List.length paras)%nat
                            then 240 else 120)))
                  None [mkTextRun para 22 false false])) /\
    nth_error blocks (3 + List.length paras) = Some (header "EXPERIENCE").
Proof.
  intros Hsum. exists (layout data).
  split; [apply render_layout|]. split; [apply layout_heading|]. split.
  - intros i para Hi.
    rewrite (layout_summary data i para) by now rewrite Hsum.
    unfold summary_block, array_length, run. rewrite Hsum. simpl or_empty.
    assert (Hlt : (i < List.length paras)%nat)
      by (apply nth_error_Some; now rewrite Hi).
    do 4 f_equal.
    destruct (Nat.eqb_spec (S i) (List.length paras));
      destruct (Z.eqb_spec (Z.of_nat i) (Z.of_nat (List.length paras) - 1));
      try reflexivity; lia.
  - replace (3 + List.length paras)%nat
      with (3 + List.length (or_empty (summary data)) + 0)%nat
      by (rewrite Hsum; simpl; lia).
    now rewrite layout_after_summary.
Qed.

Lemma summary_spacing_witness :
  exists blocks,
    render three_jobs = Ok blocks /\
    firstn 3 blocks = heading_blocks three_jobs /\
    (forall (i : nat) (para : string),
        nth_error ["p1"; "p2"] i = Some para ->
        nth_error blocks (3 + i)
        = Some (mkParagraph (Some JUSTIFIED)
                  (mkSpacing None
                     (Some (if (S i =? 2)%nat then 240 else 120)))
                  None [mkTextRun para 22 false false])) /\
    nth_error blocks (3 + 2) = Some (header "EXPERIENCE").
Proof.
  apply (summary_spacing three_jobs ["p1"; "p2"]). reflexivity.
Defined.

(* ===================================================================== *)
(** * Absent and empty values                                             *)
(* ===================================================================== *)

Lemma same_layout (d1 d2 : ResumeRecord) :
  layout d1 = layout d2 -> same_blocks d1 d2.
Proof.
  intros H. exists (layout d1). split; [apply render_layout|].
  rewrite H. apply render_layout.
Qed.

Lemma mapi_from_ext {A B : Type} (g g' : A -> Z -> B) (l : list A) :
  (forall x i, g x i = g' x i) ->
  forall i, mapi_from g i l = mapi_from g' i l.
Proof.
  intros H i. apply mapi_from_pointwise.
  induction l; constructor; auto.
Qed.

Lemma Forall2_diag {A : Type} (R : A -> A -> Prop) (l : list A) :
  (forall x, R x x) -> Forall2 R l l.
Proof. intros H. induction l; constructor; auto. Qed.

(** The blocks of a job depend on the record through the number of jobs
    only. *)
Lemma job_blocks_ext (d1 d2 : ResumeRecord) (job : Job) (jobIndex : Z) :
  array_length (experience d1) = array_length (experience d2) ->
  job_blocks d1 job jobIndex = job_blocks d2 job jobIndex.
Proof.
  intros H. unfold job_blocks, mapi. f_equal.
  apply mapi_from_ext. intros resp respIndex.
  unfold responsibility_block. now rewrite H.
Qed.

Lemma responsibilities_absent_or_empty (data : ResumeRecord)
  (earlier later : list Job) (job : Job) :
  layout (with_experience
            (Some (earlier ++ with_responsibilities None job :: later)) data)
  = layout (with_experience
              (Some (earlier ++ with_responsibilities (Some []) job :: later))
              data).
Proof.
  unfold layout. cbn [with_experience summary experience education
    certifications achievements skills personal or_empty].
  do 3 f_equal.
  replace (mapi (job_blocks _) (earlier ++ with_responsibilities None job :: later))
    with (mapi (job_blocks
                  (with_experience
                     (Some (earlier ++ with_responsibilities (Some []) job
                            :: later)) data))
            (earlier ++ with_responsibilities (Some []) job :: later));
    [reflexivity|].
  symmetry. apply mapi_from_pointwise.
  assert (Hlen : array_length
                   (experience
                      (with_experience
                         (Some (earlier ++ with_responsibilities None job
                                :: later)) data))
                 = array_length
                     (experience
                        (with_experience
                           (Some (earlier ++ with_responsibilities (Some []) job
                                  :: later)) data))).
  { unfold array_length. simpl. now rewrite !length_app. }
  apply Forall2_app; [|constructor].
  - apply Forall2_diag. intros x i. now apply job_blocks_ext.
  - intros i. rewrite (job_blocks_ext _ _ _ _ Hlen). reflexivity.
  - apply Forall2_diag. intros x i. now apply job_blocks_ext.
Qed.

(** C3. For each collection-valued key (summary, experience, the
    responsibilities of any job, education, certifications, achievements,
    personal.other), the record with the key absent and the record with
    the key set to the empty list both render without an exception, to
    the same block sequence. *)
Theorem absent_collection_as_empty :
  (forall data,
      same_blocks (with_summary None data) (with_summary (Some []) data)) /\
  (forall data,
      same_blocks (with_experience None data)
        (with_experience (Some []) data)) /\
  (forall data earlier job later,
      same_blocks
        (with_experience
           (Some (earlier ++ with_responsibilities None job :: later)) data)
        (with_experience
           (Some (earlier ++ with_responsibilities (Some []) job :: later))
           data)) /\
  (forall data,
      same_blocks (with_education None data)
        (with_education (Some []) data)) /\
  (forall data,
      same_blocks (with_certifications None data)
        (with_certifications (Some []) data)) /\
  (forall data,
      same_blocks (with_achievements None data)
        (with_achievements (Some []) data)) /\
  (forall data p,
      same_blocks (with_personal (Some (with_other None p)) data)
        (with_personal (Some (with_other (Some []) p)) data)).
Proof.
  repeat split; intros; apply same_layout;
    solve [reflexivity | apply responsibilities_absent_or_empty].
Qed.


(** C7. The record [{name:"jane doe", summary:["a"], experience:[],
    education:[], skills:{}, personal:{}}] renders to the sequence below:
    the text of the name block is the input string as it is, and the
    EXPERIENCE and EDUCATON headers follow the summary with no entry block
    after either of them. *)
Theorem render_jane_doe :
  render jane_doe
  = Ok [ mkParagraph (Some CENTER) (mkSpacing None (Some 100)) None
           [ mkTextRun "jane doe" 32 true false ];
         mkParagraph (Some CENTER) (mkSpacing None (Some 50)) None
           [ mkTextRun "Location|Phone" 22 false false ];
         mkParagraph (Some CENTER) (mkSpacing None (Some 200)) None
           [ mkTextRun "email@example.com" 22 false true ];
         mkParagraph (Some JUSTIFIED) (mkSpacing None (Some 240)) None
           [ mkTextRun "a" 22 false false ];
         mkParagraph None (mkSpacing (Some 120) (Some 120)) None
           [ mkTextRun "EXPERIENCE" 24 true false ];
         mkParagraph None (mkSpacing (Some 120) (Some 120)) None
           [ mkTextRun "EDUCATON" 24 true false ];
         mkParagraph None (mkSpacing (Some 120) (Some 120)) None
           [ mkTextRun "SKILLS" 24 true false ];
         mkParagraph (Some JUSTIFIED) (mkSpacing None (Some 100)) None
           [ mkTextRun "Technical skills: " 22 true false;
             mkTextRun "Skills to be added" 22 false false ];
         mkParagraph (Some JUSTIFIED) (mkSpacing None (Some 180)) None
           [ mkTextRun "Core competencies: " 22 true false;
             mkTextRun "Competencies to be added" 22 false false ];
         mkParagraph None (mkSpacing (Some 120) (Some 120)) None
           [ mkTextRun "PERSONAL DETAILS" 24 true false ];
         mkParagraph None (mkSpacing None (Some 60))
           (Some (mkNumbering "bullet-list" 0))
           [ mkTextRun "Nationality: To be added" 22 false false ] ].
Proof. reflexivity. Qed.

(* ===================================================================== *)
(** * Section headers and optional sections                               *)
(* ===================================================================== *)

Lemma plain_not_header (label : string) (l : list Paragraph) :
  Forall plain l -> ~ In (header label) l.
Proof.
  intros Hall Hin. rewrite Forall_forall in Hall.
  specialize (Hall _ Hin). discriminate.
Qed.

Lemma plain_job_blocks (data : ResumeRecord) :
  Forall plain
    (List.concat (mapi (job_blocks data) (or_empty (experience data)))).
Proof.
  apply Forall_concat, Forall_mapi_from. intros job jobIndex.
  unfold job_blocks. apply Forall_app. split.
  - repeat constructor.
  - apply Forall_mapi_from. reflexivity.
Qed.

Lemma plain_education_blocks (data : ResumeRecord) :
  Forall plain
    (List.concat (mapi (education_blocks data) (or_empty (education data)))).
Proof.
  apply Forall_concat, Forall_mapi_from. intros edu index.
  repeat constructor.
Qed.

Lemma plain_optional_detail (label : string) (value : option string) :
  Forall plain (optional_detail label value).
Proof.
  unfold optional_detail. destruct value as [v|]; [|constructor].
  destruct (truthy v); repeat constructor.
Qed.

Lemma in_section_blocks (label label' : string)
  (entries : option (list string)) :
  In (header label) (section_blocks label' entries) ->
  label = label' /\ exists item items, entries = Some (item :: items).
Proof.
  unfold section_blocks.
  destruct entries as [[|item items]|]; cbn [or_empty];
    [intros [] | | intros []].
  intros [H|H].
  - injection H as <-. eauto.
  - exfalso. revert H. apply plain_not_header, Forall_mapi_from. reflexivity.
Qed.

(** A section header occurs in the block sequence only where the program
    writes it. *)
Lemma in_layout_header (label : string) (data : ResumeRecord) :
  In (header label) (layout data) ->
  In label ["EXPERIENCE"; "EDUCATON"; "SKILLS"; "PERSONAL DETAILS"] \/
  (label = "CERTIFICATIONS" /\
   exists item items, certifications data = Some (item :: items)) \/
  (label = "KEY ACHIEVEMENTS" /\
   exists item items, achievements data = Some (item :: items)).
Proof.
  unfold layout. rewrite !in_app_iff.
  intros [H|[H|[H|[H|[H|[H|[H|[H|[H|[H|[H|H]]]]]]]]]]].
  - exfalso. revert H. apply plain_not_header. repeat constructor.
  - exfalso. revert H. apply plain_not_header, Forall_mapi_from. reflexivity.
  - destruct H as [H|[]]. injection H as <-. simpl. auto.
  - exfalso. revert H. apply plain_not_header, plain_job_blocks.
  - destruct H as [H|[]]. injection H as <-. simpl. auto.
  - exfalso. revert H. apply plain_not_header, plain_education_blocks.
  - right. left. now apply in_section_blocks.
  - right. right. now apply in_section_blocks.
  - left. simpl in H.
    destruct H as [H|[H|[H|[H|[H|[]]]]]]; try discriminate H;
      injection H as <-; simpl; auto.
  - exfalso. revert H. apply plain_not_header, plain_optional_detail.
  - exfalso. revert H. apply plain_not_header, plain_optional_detail.
  - exfalso. revert H. apply plain_not_header.
    apply Forall_forall. intros b Hb. apply in_map_iff in Hb.
    destruct Hb as [detail [<- _]]. reflexivity.
Qed.

Lemma certifications_header (data : ResumeRecord) :
  In (header "CERTIFICATIONS") (layout data) <->
  exists item items, certifications data = Some (item :: items).
Proof.
  split.
  - intros H. apply in_layout_header in H.
    destruct H as [H|[[_ H]|[H _]]]; [|exact H|discriminate H].
    simpl in H. repeat (destruct H as [H|H]; [discriminate H|]).
    contradiction.
  - intros [item [items H]]. unfold layout, section_blocks.
    rewrite H. rewrite !in_app_iff. do 6 right. left. now left.
Qed.

Lemma achievements_header (data : ResumeRecord) :
  In (header "KEY ACHIEVEMENTS") (layout data) <->
  exists item items, achievements data = Some (item :: items).
Proof.
  split.
  - intros H. apply in_layout_header in H.
    destruct H as [H|[[H _]|[_ H]]]; [|discriminate H|exact H].
    simpl in H. repeat (destruct H as [H|H]; [discriminate H|]).
    contradiction.
  - intros [item [items H]]. unfold layout, section_blocks.
    rewrite H. rewrite !in_app_iff. do 7 right. left. now left.
Qed.

(** The bullets of an optional section: gap 60 for every entry but the
    last, gap 180 for the last. *)
Lemma closing_blocks_split (n : Z) (l : list string) :
  forall i,
    l <> [] -> n = i + Z.of_nat (List.length l) ->
    mapi_from (fun item index => bullet (if index =? n - 1 then 180 else 60) item)
      i l
    = List.map (bullet 60) (removelast l) ++ [bullet 180 (last l "")].
Proof.
  induction l as [|x l IH]; intros i Hne Hn; [contradiction|].
  destruct l as [|y l].
  - simpl in *. replace (i =? n - 1) with true
      by (symmetry; apply Z.eqb_eq; lia).
    reflexivity.
  - cbn [mapi_from removelast last List.map app].
    replace (i =? n - 1) with false
      by (symmetry; apply Z.eqb_neq; simpl List.length in Hn; lia).
    f_equal. apply IH; [discriminate|].
    simpl List.length in *. lia.
Qed.

Lemma section_blocks_split (label : string) (entries : list string) :
  entries <> [] ->
  section_blocks label (Some entries)
  = header label :: List.map (bullet 60) (removelast entries)
    ++ [bullet 180 (last entries "")].
Proof.
  intros Hne. unfold section_blocks. cbn [or_empty].
  destruct entries as [|item items]; [contradiction|].
  f_equal. unfold mapi, closing_block, array_length. cbn [or_empty].
  apply closing_blocks_split; [assumption|lia].
Qed.

(** C6. The record with every key absent renders to the sequence below:
    the placeholders NAME, Location|Phone, email@example.com, Skills to be
    added, Competencies to be added and Nationality: To be added, and no
    CERTIFICATIONS or KEY ACHIEVEMENTS header or bullet.  For every
    record, the CERTIFICATIONS (KEY ACHIEVEMENTS) header is in the block
    sequence exactly when the list is present and non-empty, and it is
    then followed by one list item per entry, with the entry as its text
    and the trailing gap 60, 180 for the last entry. *)
Theorem placeholders_and_optional_sections :
  render absent_record
  = Ok [ mkParagraph (Some CENTER) (mkSpacing None (Some 100)) None
           [ mkTextRun "NAME" 32 true false ];
         mkParagraph (Some CENTER) (mkSpacing None (Some 50)) None
           [ mkTextRun "Location|Phone" 22 false false ];
         mkParagraph (Some CENTER) (mkSpacing None (Some 200)) None
           [ mkTextRun "email@example.com" 22 false true ];
         mkParagraph None (mkSpacing (Some 120) (Some 120)) None
           [ mkTextRun "EXPERIENCE" 24 true false ];
         mkParagraph None (mkSpacing (Some 120) (Some 120)) None
           [ mkTextRun "EDUCATON" 24 true false ];
         mkParagraph None (mkSpacing (Some 120) (Some 120)) None
           [ mkTextRun "SKILLS" 24 true false ];
         mkParagraph (Some JUSTIFIED) (mkSpacing None (Some 100)) None
           [ mkTextRun "Technical skills: " 22 true false;
             mkTextRun "Skills to be added" 22 false false ];
         mkParagraph (Some JUSTIFIED) (mkSpacing None (Some 180)) None
           [ mkTextRun "Core competencies: " 22 true false;
             mkTextRun "Competencies to be added" 22 false false ];
         mkParagraph None (mkSpacing (Some 120) (Some 120)) None
           [ mkTextRun "PERSONAL DETAILS" 24 true false ];
         mkParagraph None (mkSpacing None (Some 60))
           (Some (mkNumbering "bullet-list" 0))
           [ mkTextRun "Nationality: To be added" 22 false false ] ] /\
  forall data, exists blocks,
    render data = Ok blocks /\
    (In (mkParagraph None (mkSpacing (Some 120) (Some 120)) None
           [ mkTextRun "CERTIFICATIONS" 24 true false ]) blocks <->
     exists item items, certifications data = Some (item :: items)) /\
    (In (mkParagraph None (mkSpacing (Some 120) (Some 120)) None
           [ mkTextRun "KEY ACHIEVEMENTS" 24 true false ]) blocks <->
     exists item items, achievements data = Some (item :: items)) /\
    (forall entries, certifications data = Some entries -> entries <> [] ->
       exists pre post,
         blocks
         = pre
           ++ mkParagraph None (mkSpacing (Some 120) (Some 120)) None
                [ mkTextRun "CERTIFICATIONS" 24 true false ]
              :: List.map
                   (fun entry =>
                      mkParagraph None (mkSpacing None (Some 60))
                        (Some (mkNumbering "bullet-list" 0))
                        [ mkTextRun entry 22 false false ])
                   (removelast entries)
              ++ [ mkParagraph None (mkSpacing None (Some 180))
                     (Some (mkNumbering "bullet-list" 0))
                     [ mkTextRun (last entries "") 22 false false ] ]
              ++ post) /\
    (forall entries, achievements data = Some entries -> entries <> [] ->
       exists pre post,
         blocks
         = pre
           ++ mkParagraph None (mkSpacing (Some 120) (Some 120)) None
                [ mkTextRun "KEY ACHIEVEMENTS" 24 true false ]
              :: List.map
                   (fun entry =>
                      mkParagraph None (mkSpacing None (Some 60))
                        (Some (mkNumbering "bullet-list" 0))
                        [ mkTextRun entry 22 false false ])
                   (removelast entries)
              ++ [ mkParagraph None (mkSpacing None (Some 180))
                     (Some (mkNumbering "bullet-list" 0))
                     [ mkTextRun (last entries "") 22 false false ] ]
              ++ post).
Proof.
  split; [reflexivity|].
  intros data. exists (layout data).
  split; [apply render_layout|].
  split; [apply certifications_header|].
  split; [apply achievements_header|].
  split; intros entries Hentries Hne.
  - exists (heading_blocks data
            ++ mapi (summary_block data) (or_empty (summary data))
            ++ [ header "EXPERIENCE" ]
            ++ List.concat (mapi (job_blocks data) (or_empty (experience data)))
            ++ [ header "EDUCATON" ]
            ++ List.concat
                 (mapi (education_blocks data) (or_empty (education data)))).
    eexists. unfold layout.
    rewrite Hentries, (section_blocks_split _ _ Hne).
    rewrite <- !app_assoc. cbn [app]. rewrite <- !app_assoc. reflexivity.
  - exists (heading_blocks data
            ++ mapi (summary_block data) (or_empty (summary data))
            ++ [ header "EXPERIENCE" ]
            ++ List.concat (mapi (job_blocks data) (or_empty (experience data)))
            ++ [ header "EDUCATON" ]
            ++ List.concat
                 (mapi (education_blocks data) (or_empty (education data)))
            ++ section_blocks "CERTIFICATIONS" (certifications data)).
    eexists. unfold layout.
    rewrite Hentries, (section_blocks_split _ _ Hne).
    rewrite <- !app_assoc. cbn [app]. rewrite <- !app_assoc. reflexivity.
Qed.

Lemma placeholders_and_optional_sections_witness :
  (exists blocks pre post,
      render certified = Ok blocks /\
      blocks
      = pre
        ++ [ mkParagraph None (mkSpacing (Some 120) (Some 120)) None
               [ mkTextRun "CERTIFICATIONS" 24 true false ];
             mkParagraph None (mkSpacing None (Some 60))
               (Some (mkNumbering "bullet-list" 0))
               [ mkTextRun "AWS" 22 false false ];
             mkParagraph None (mkSpacing None (Some 180))
               (Some (mkNumbering "bullet-list" 0))
               [ mkTextRun "PMP" 22 false false ] ]
        ++ post) /\
  (exists blocks pre post,
      render certified = Ok blocks /\
      blocks
      = pre
        ++ [ mkParagraph None (mkSpacing (Some 120) (Some 120)) None
               [ mkTextRun "KEY ACHIEVEMENTS" 24 true false ];
             mkParagraph None (mkSpacing None (Some 180))
               (Some (mkNumbering "bullet-list" 0))
               [ mkTextRun "Employee of the year" 22 false false ] ]
        ++ post) /\
  (exists blocks,
      render three_jobs = Ok blocks /\
      In (mkParagraph None (mkSpacing (Some 120) (Some 120)) None
            [ mkTextRun "CERTIFICATIONS" 24 true false ]) blocks /\
      ~ In (mkParagraph None (mkSpacing (Some 120) (Some 120)) None
              [ mkTextRun "KEY ACHIEVEMENTS" 24 true false ]) blocks).
Proof.
  split; [|split].
  - destruct (proj2 placeholders_and_optional_sections certified)
      as (blocks & Hrender & _ & _ & Hsplit & _).
    destruct (Hsplit ["AWS"; "PMP"] eq_refl
                (fun H => eq_ind ["AWS"; "PMP"]
                            (fun l => match l with
                                      | [] => False
                                      | _ :: _ => True
                                      end) I [] H))
      as (pre & post & E).
    now exists blocks, pre, post.
  - destruct (proj2 placeholders_and_optional_sections certified)
      as (blocks & Hrender & _ & _ & _ & Hsplit).
    destruct (Hsplit ["Employee of the year"] eq_refl
                (fun H => eq_ind ["Employee of the year"]
                            (fun l => match l with
                                      | [] => False
                                      | _ :: _ => True
                                      end) I [] H))
      as (pre & post & E).
    now exists blocks, pre, post.
  - destruct (proj2 placeholders_and_optional_sections three_jobs)
      as (blocks & Hrender & Hcert & Hach & _).
    exists blocks. split; [exact Hrender|]. split.
    + apply Hcert. exists "AWS", []. reflexivity.
    + intros H. apply Hach in H. destruct H as (item & items & H).
      discriminate H.
Defined.

(* ===================================================================== *)
(** * The trailing gaps                                                   *)
(* ===================================================================== *)

Lemma gaps_of_layout (data : ResumeRecord) :
  Forall (gap_in trailing_gaps) (layout data).
Proof.
  unfold layout. repeat (apply Forall_app; split).
  - repeat constructor; gap_literal.
  - apply Forall_mapi_from. intros para index. gap_literal.
  - repeat constructor; gap_literal.
  - apply Forall_concat, Forall_mapi_from. intros job jobIndex.
    unfold job_blocks. apply Forall_app. split.
    + repeat constructor; gap_literal.
    + apply Forall_mapi_from. intros resp respIndex.
      unfold responsibility_block. gap_literal.
  - repeat constructor; gap_literal.
  - apply Forall_concat, Forall_mapi_from. intros edu index.
    repeat constructor; gap_literal.
  - unfold section_blocks.
    destruct (or_empty (certifications data)); constructor;
      [gap_literal|].
    apply Forall_mapi_from. intros item index. unfold closing_block.
    gap_literal.
  - unfold section_blocks.
    destruct (or_empty (achievements data)); constructor;
      [gap_literal|].
    apply Forall_mapi_from. intros item index. unfold closing_block.
    gap_literal.
  - repeat constructor; gap_literal.
  - unfold optional_detail.
    destruct (opt_chain (personal data) languages) as [v|]; [|constructor].
    destruct (truthy v); repeat constructor; gap_literal.
  - unfold optional_detail.
    destruct (opt_chain (personal data) visaStatus) as [v|]; [|constructor].
    destruct (truthy v); repeat constructor; gap_literal.
  - apply Forall_forall. intros b Hb. apply in_map_iff in Hb.
    destruct Hb as [detail [<- _]]. gap_literal.
Qed.

(** [gap] is the trailing gap of one of [blocks]. *)
Lemma gap_used (blocks : list Paragraph) (gap : Z) :
  existsb (fun b => match after (spacing b) with
                    | Some g => g =? gap
                    | None => false
                    end) blocks = true ->
  exists b, In b blocks /\ after (spacing b) = Some gap.
Proof.
  intros H. apply existsb_exists in H. destruct H as [b [Hin Hb]].
  exists b. split; [assumption|].
  destruct (after (spacing b)); [|discriminate].
  apply Z.eqb_eq in Hb. now subst.
Qed.

(** C8, as the code has it. Every block of every rendered sequence has a
    trailing gap, and it is one of the eight values 50, 60, 80, 100, 120,
    180, 200 and 240 that the program text writes; each of the eight
    occurs in the rendering of one record. *)
Theorem trailing_gaps_of_render :
  (forall data, exists blocks,
      render data = Ok blocks /\ Forall (gap_in trailing_gaps) blocks) /\
  (exists blocks,
      render three_jobs = Ok blocks /\
      forall gap, In gap trailing_gaps ->
                  exists b, In b blocks /\ after (spacing b) = Some gap).
Proof.
  split.
  - intros data. exists (layout data).
    split; [apply render_layout | apply gaps_of_layout].
  - exists (layout three_jobs). split; [apply render_layout|].
    intros gap Hgap. apply gap_used. revert gap Hgap.
    apply forallb_forall. reflexivity.
Qed.

Lemma trailing_gaps_of_render_witness :
  exists blocks,
    render three_jobs = Ok blocks /\
    exists b, In b blocks /\ after (spacing b) = Some 240.
Proof.
  destruct (proj2 trailing_gaps_of_render) as (blocks & Hrender & Hused).
  exists blocks. split; [exact Hrender|].
  apply Hused. unfold trailing_gaps. in_literal.
Defined.

(** C8, as stated, fails on the record with every key absent: the first
    three blocks of its rendering have the trailing gaps 100, 50 and 200,
    so no two constants cover the gaps of the sequence. *)
Lemma more_than_two_gaps :
  exists blocks,
    render absent_record = Ok blocks /\
    ~ exists small large, Forall (gap_in [small; large]) blocks.
Proof.
  exists (layout absent_record). split; [apply render_layout|].
  intros (small & large & H).
  inversion_clear H as [|? ? (g1 & E1 & H1) H'].
  inversion_clear H' as [|? ? (g2 & E2 & H2) H''].
  inversion_clear H'' as [|? ? (g3 & E3 & H3) _].
  cbn in E1, E2, E3. injection E1 as <-. injection E2 as <-.
  injection E3 as <-. simpl in H1, H2, H3. lia.
Qed.

(* ===================================================================== *)
(** * The span the pattern matches                                        *)
(* ===================================================================== *)

Lemma occurs_append (c : ascii) (s t : string) :
  occurs c (s +++ t) = (occurs c s || occurs c t)%bool.
Proof.
  induction s as [|a s IH]; simpl; [reflexivity|].
  now rewrite IH, orb_assoc.
Qed.

Lemma longest_closing_none (s : string) :
  occurs "}" s = false -> longest_closing s = None.
Proof.
  induction s as [|a s IH]; simpl; [reflexivity|].
  intros H. apply orb_false_elim in H. destruct H as [Ha Hs].
  now rewrite (IH Hs), Ha.
Qed.

Lemma longest_closing_some (s : string) :
  occurs "}" s = true -> exists p, longest_closing s = Some p.
Proof.
  induction s as [|a s IH]; simpl; [discriminate|].
  intros H. destruct (longest_closing s) as [p|]; [eauto|].
  destruct (Ascii.eqb a "}"); [eauto|]. simpl in H.
  destruct (IH H) as [p Hp]. discriminate.
Qed.

(** Greedy: the match runs to the last closing brace of the text. *)
Lemma longest_closing_last (mid post : string) :
  occurs "}" post = false ->
  longest_closing (mid +++ "}" +++ post) = Some (mid +++ "}").
Proof.
  intros Hpost. induction mid as [|a mid IH]; simpl.
  - now rewrite (longest_closing_none post Hpost).
  - simpl in IH. now rewrite IH.
Qed.

Lemma longest_closing_sound (s p : string) :
  longest_closing s = Some p ->
  exists mid post, s = mid +++ "}" +++ post /\ p = mid +++ "}".
Proof.
  revert p. induction s as [|a s IH]; simpl; intros p H; [discriminate|].
  destruct (longest_closing s) as [q|].
  - injection H as <-. destruct (IH q eq_refl) as (mid & post & -> & ->).
    now exists (String a mid), post.
  - destruct (Ascii.eqb_spec a "}") as [->|]; [|discriminate].
    injection H as <-. now exists EmptyString, s.
Qed.

(** Leftmost: the match starts at the first opening brace that has a
    closing brace after it. *)
Lemma match_braces_span (pre mid post : string) :
  occurs "{" pre = false ->
  occurs "}" post = false ->
  match_braces (pre +++ "{" +++ mid +++ "}" +++ post)
  = Some ("{" +++ mid +++ "}").
Proof.
  intros Hpre Hpost. induction pre as [|a pre IH]; simpl.
  - pose proof (longest_closing_last mid post Hpost) as H.
    simpl in H. now rewrite H.
  - simpl in Hpre. apply orb_false_elim in Hpre. destruct Hpre as [Ha Hpre].
    rewrite Ha. now apply IH.
Qed.

Lemma match_braces_sound (s span : string) :
  match_braces s = Some span ->
  exists pre mid post,
    s = pre +++ "{" +++ mid +++ "}" +++ post /\ span = "{" +++ mid +++ "}".
Proof.
  induction s as [|a s IH]; simpl; intros H; [discriminate|].
  destruct (Ascii.eqb_spec a "{") as [->|].
  - destruct (longest_closing s) as [p|] eqn:Hp.
    + injection H as <-.
      destruct (longest_closing_sound s p Hp) as (mid & post & -> & ->).
      now exists EmptyString, mid, post.
    + destruct (IH H) as (pre & mid & post & -> & ->).
      now exists (String "{" pre), mid, post.
  - destruct (IH H) as (pre & mid & post & -> & ->).
    now exists (String a pre), mid, post.
Qed.

(** A text without an opening brace that is followed by a closing brace
    has no match. *)
Lemma match_braces_none (s : string) :
  (forall pre mid post, s <> pre +++ "{" +++ mid +++ "}" +++ post) ->
  match_braces s = None.
Proof.
  intros H. destruct (match_braces s) as [span|] eqn:Hs; [|reflexivity].
  destruct (match_braces_sound s span Hs) as (pre & mid & post & E & _).
  now destruct (H pre mid post).
Qed.

Lemma match_braces_complete (pre mid post : string) :
  exists span, match_braces (pre +++ "{" +++ mid +++ "}" +++ post) = Some span.
Proof.
  induction pre as [|a pre IH]; simpl.
  - destruct (longest_closing_some (mid +++ "}" +++ post)) as [p Hp].
    + rewrite occurs_append. simpl. apply orb_true_r.
    + simpl in Hp. rewrite Hp. eauto.
  - destruct (Ascii.eqb a "{"); [|exact IH].
    destruct (longest_closing_some (pre +++ "{" +++ mid +++ "}" +++ post))
      as [p Hp].
    + rewrite !occurs_append. simpl. rewrite !orb_true_r. reflexivity.
    + simpl in Hp. rewrite Hp. eauto.
Qed.

Lemma longest_closing_rest (s p : string) :
  longest_closing s = Some p ->
  exists mid post,
    s = mid +++ "}" +++ post /\ p = mid +++ "}" /\ occurs "}" post = false.
Proof.
  revert p. induction s as [|a s IH]; simpl; intros p H; [discriminate|].
  destruct (longest_closing s) as [q|] eqn:Hq.
  - injection H as <-.
    destruct (IH q eq_refl) as (mid & post & -> & -> & Hpost).
    now exists (String a mid), post.
  - destruct (Ascii.eqb_spec a "}") as [->|]; [|discriminate].
    injection H as <-. exists EmptyString, s. repeat split.
    destruct (occurs "}" s) eqn:Hs; [|reflexivity].
    destruct (longest_closing_some s Hs) as [q' Hq']. congruence.
Qed.

(** Every text either has no match, or splits around its match with no
    opening brace before it and no closing brace after it. *)
Lemma match_braces_cases (s : string) :
  (exists pre mid post,
      s = pre +++ "{" +++ mid +++ "}" +++ post /\
      occurs "{" pre = false /\ occurs "}" post = false) \/
  (forall pre mid post, s <> pre +++ "{" +++ mid +++ "}" +++ post).
Proof.
  induction s as [|a s IH].
  - right. intros [|b pre] mid post; discriminate.
  - destruct IH as [(pre & mid & post & -> & Hpre & Hpost)|Hnone].
    + left. destruct (Ascii.eqb_spec a "{") as [->|Hne].
      * destruct (longest_closing_some
                    (pre +++ "{" +++ mid +++ "}" +++ post)) as [p Hp].
        { rewrite !occurs_append. simpl. rewrite !orb_true_r. reflexivity. }
        destruct (longest_closing_rest _ _ Hp) as (m & q & E & _ & Hq).
        exists EmptyString, m, q. rewrite E. now repeat split.
      * exists (String a pre), mid, post. simpl. repeat split; auto.
        apply Ascii.eqb_neq in Hne. now rewrite Hne.
    + destruct (Ascii.eqb_spec a "{") as [->|Hne].
      * destruct (longest_closing s) as [p|] eqn:Hp.
        { left. destruct (longest_closing_rest _ _ Hp) as (m & q & E & _ & Hq).
          exists EmptyString, m, q. rewrite E. now repeat split. }
        right. intros [|b pre] mid post E; simpl in E.
        { injection E as E. rewrite E in Hp.
          destruct (longest_closing_some (mid +++ "}" +++ post)) as [p' Hp'];
            [|simpl in Hp'; congruence].
          rewrite occurs_append. simpl. apply orb_true_r. }
        injection E as _ E. now apply (Hnone pre mid post).
      * right. intros [|b pre] mid post E; simpl in E.
        { injection E as E _. congruence. }
        injection E as _ E. now apply (Hnone pre mid post).
Qed.

(* ===================================================================== *)
(** * The reply of the completion endpoint                                *)
(* ===================================================================== *)

Section Replies.

Context {JSONValue : Type} (JSON_parse : string -> option JSONValue).

Lemma callChatGPTAPI_completion (responseText : string) :
  callChatGPTAPI JSON_parse (completion responseText)
  = parse_reply JSON_parse responseText.
Proof.
  unfold callChatGPTAPI, completion. cbn.
  now destruct (parse_reply JSON_parse responseText).
Qed.

Lemma parse_reply_direct (responseText : string) (v : JSONValue) :
  JSON_parse responseText = Some v ->
  parse_reply JSON_parse responseText = Ok v.
Proof.
  intros H. unfold parse_reply, JSON_parse_or_throw. now rewrite H.
Qed.

Lemma parse_reply_fallback (responseText : string) :
  JSON_parse responseText = None ->
  parse_reply JSON_parse responseText
  = match match_braces responseText with
    | Some jsonMatch => JSON_parse_or_throw JSON_parse jsonMatch
    | None => Throw (Error "Failed to parse ChatGPT response as JSON")
    end.
Proof.
  intros H. unfold parse_reply, JSON_parse_or_throw at 1. now rewrite H.
Qed.

End Replies.

(** C4, as the code has it. A reply text that parses as JSON yields that
    parse.  Otherwise the pattern selects the span from the first opening
    brace to the last closing brace of the text: when the text is
    [pre ++ "{" ++ mid ++ "}" ++ post] with no opening brace in [pre] and
    no closing brace in [post], the result is the parse of
    ["{" ++ mid ++ "}"] if that span is JSON, and the parser's exception if
    it is not; when the text has no opening brace followed by a closing
    brace, the call fails with the error "Failed to parse ChatGPT response
    as JSON".  Every text is in one of these cases.  So a JSON object
    wrapped in prose that has no brace of its own is extracted. *)
Theorem reply_parsing {JSONValue : Type}
  (JSON_parse : string -> option JSONValue) (text : string) :
  (forall v, JSON_parse text = Some v ->
             callChatGPTAPI JSON_parse (completion text) = Ok v) /\
  (JSON_parse text = None ->
   (forall pre mid post,
       text = pre +++ "{" +++ mid +++ "}" +++ post ->
       occurs "{" pre = false ->
       occurs "}" post = false ->
       (forall v, JSON_parse ("{" +++ mid +++ "}") = Some v ->
                  callChatGPTAPI JSON_parse (completion text) = Ok v) /\
       (JSON_parse ("{" +++ mid +++ "}") = None ->
        callChatGPTAPI JSON_parse (completion text) = Throw SyntaxError)) /\
   ((forall pre mid post, text <> pre +++ "{" +++ mid +++ "}" +++ post) ->
    callChatGPTAPI JSON_parse (completion text)
    = Throw (Error "Failed to parse ChatGPT response as JSON"))) /\
  ((exists pre mid post,
       text = pre +++ "{" +++ mid +++ "}" +++ post /\
       occurs "{" pre = false /\ occurs "}" post = false) \/
   (forall pre mid post, text <> pre +++ "{" +++ mid +++ "}" +++ post)).
Proof.
  rewrite callChatGPTAPI_completion. split; [|split].
  - apply parse_reply_direct.
  - intros Hdirect. rewrite (parse_reply_fallback _ _ Hdirect). split.
    + intros pre mid post -> Hpre Hpost.
      rewrite (match_braces_span pre mid post Hpre Hpost).
      unfold JSON_parse_or_throw. split.
      * now intros v ->.
      * now intros ->.
    + intros Hnone. now rewrite (match_braces_none text Hnone).
  - apply match_braces_cases.
Qed.

Lemma reply_parsing_witness :
  Json.parse wrapped_reply = None /\
  callChatGPTAPI Json.parse (completion wrapped_reply)
  = Ok (Json.Object [("name", Json.Str "JANE DOE")]).
Proof.
  split; [reflexivity|].
  apply (proj1 (proj1 (proj1 (proj2 (reply_parsing Json.parse wrapped_reply))
                         eq_refl)
                  "Here is the JSON: "
                  (quoted "name" +++ ":" +++ quoted "JANE DOE")
                  " Hope this helps!" eq_refl eq_refl eq_refl)).
  reflexivity.
Defined.

(** C4, as stated, fails on a reply whose prose has a closing brace after
    the JSON object.  The text has one brace-delimited span, the first
    top-level span is the JSON object and it parses, yet the call throws:
    the pattern runs on to the last closing brace of the text.  It fails
    in the same way on a reply with two JSON objects, where the pattern
    selects the whole text. *)
Lemma first_span_not_extracted :
  Json.parse stray_brace_reply = None /\
  first_top_level_span stray_brace_reply
  = Some ("{" +++ quoted "name" +++ ":" +++ quoted "JANE DOE" +++ "}",
          " (done :-})") /\
  first_top_level_span " (done :-})" = None /\
  Json.parse ("{" +++ quoted "name" +++ ":" +++ quoted "JANE DOE" +++ "}")
  = Some (Json.Object [("name", Json.Str "JANE DOE")]) /\
  match_braces stray_brace_reply
  = Some ("{" +++ quoted "name" +++ ":" +++ quoted "JANE DOE"
          +++ "} (done :-}") /\
  callChatGPTAPI Json.parse (completion stray_brace_reply)
  = Throw SyntaxError /\
  Json.parse two_objects_reply = None /\
  first_top_level_span two_objects_reply
  = Some ("{" +++ quoted "name" +++ ":" +++ quoted "JANE DOE" +++ "}",
          " and {" +++ quoted "name" +++ ":" +++ quoted "JOHN ROE" +++ "}") /\
  match_braces two_objects_reply = Some two_objects_reply /\
  callChatGPTAPI Json.parse (completion two_objects_reply)
  = Throw SyntaxError.
Proof. repeat split; reflexivity. Qed.

(** C5, as the code has it. A non-success reply makes the call throw; no
    record is returned.  When the body is an object whose error.message is
    a non-empty string, the error is "ChatGPT API error: " followed by that
    message; when error or error.message is absent or empty, it is
    "ChatGPT API error: HTTP " followed by the status; when the body cannot
    be read as JSON, the exception of the reader propagates. *)
Theorem error_reply {JSONValue : Type}
  (JSON_parse : string -> option JSONValue) (response : Response) :
  ok response = false ->
  (exists e, callChatGPTAPI JSON_parse response = Throw e) /\
  (forall body err m,
      json response = Ok body -> error body = Some err ->
      message err = Some m -> m <> "" ->
      callChatGPTAPI JSON_parse response
      = Throw (Error ("ChatGPT API error: " +++ m))) /\
  (forall body,
      json response = Ok body ->
      (error body = None \/
       exists err, error body = Some err /\
                   (message err = None \/ message err = Some "")) ->
      callChatGPTAPI JSON_parse response
      = Throw (Error ("ChatGPT API error: HTTP "
                      +++ Number_toString (status response)))) /\
  (forall e, json response = Throw e ->
             callChatGPTAPI JSON_parse response = Throw e).
Proof.
  intros Hok. unfold callChatGPTAPI. rewrite Hok. cbn [negb].
  repeat split.
  - destruct (json response); cbn; eauto.
  - intros body err m -> Herr Hm Hne. cbn. rewrite Herr. cbn. rewrite Hm.
    unfold or_default, truthy.
    destruct (String.eqb_spec m ""); [contradiction|reflexivity].
  - intros body -> [Herr|(err & Herr & [Hm|Hm])]; cbn; rewrite Herr; cbn;
      try rewrite Hm; reflexivity.
  - now intros e ->.
Qed.

Lemma error_reply_witness :
  ok unauthorized = false /\
  callChatGPTAPI Json.parse unauthorized
  = Throw (Error "ChatGPT API error: Incorrect API key provided.").
Proof.
  split; [reflexivity|].
  apply (proj1 (proj2 (error_reply Json.parse unauthorized eq_refl))
           (mkResponseBody
              (Some (mkApiError (Some "Incorrect API key provided.")))
              None)
           (mkApiError (Some "Incorrect API key provided."))
           "Incorrect API key provided." eq_refl eq_refl eq_refl).
  discriminate.
Defined.

(** C5, as stated, fails on the reply to a request with a wrong key: the
    error carries the message of the endpoint, and its text does not have
    the status 401 in it. *)
Lemma unauthorized_drops_status :
  ok unauthorized = false /\
  status unauthorized = 401 /\
  callChatGPTAPI Json.parse unauthorized
  = Throw (Error "ChatGPT API error: Incorrect API key provided.") /\
  includes "ChatGPT API error: Incorrect API key provided."
    (Number_toString (status unauthorized)) = false.
Proof. repeat split; reflexivity. Qed.

(* ===================================================================== *)
(** * The job and education entries                                       *)
(* ===================================================================== *)

Lemma length_concat_mapi_from {A B : Type} (g : A -> Z -> list B)
  (span : A -> nat) (Hspan : forall x i, List.length (g x i) = span x)
  (l : list A) :
  forall i,
    List.length (List.concat (mapi_from g i l)) = list_sum (List.map span l).
Proof.
  induction l as [|a l IH]; intros i; simpl; [reflexivity|].
  now rewrite length_app, Hspan, IH.
Qed.

(** Block [k] of job [jobIndex]. *)
Lemma layout_job_block (data : ResumeRecord) (jobIndex k : nat) (job : Job)
  (b : Paragraph) :
  nth_error (or_empty (experience data)) jobIndex = Some job ->
  nth_error (job_blocks data job (Z.of_nat jobIndex)) k = Some b ->
  nth_error (layout data) (job_position data jobIndex + k) = Some b.
Proof.
  intros Hj Hk. unfold job_position.
  rewrite <- !Nat.add_assoc.
  rewrite (Nat.add_assoc 3), layout_after_summary.
  change (nth_error ([header "EXPERIENCE"] ++ ?l) (1 + ?n))
    with (nth_error l n).
  apply nth_error_app_Some.
  now apply (nth_error_concat_mapi_from (job_blocks data) job_span
               (job_blocks_length data) _ 0 jobIndex job k b Hj).
Qed.

(** What follows the blocks of the jobs. *)
Lemma layout_after_jobs (data : ResumeRecord) (n : nat) :
  nth_error (layout data) (education_header_position data + n)
  = nth_error
      ([ header "EDUCATON" ]
       ++ List.concat (mapi (education_blocks data) (or_empty (education data)))
       ++ section_blocks "CERTIFICATIONS" (certifications data)
       ++ section_blocks "KEY ACHIEVEMENTS" (achievements data)
       ++ skills_blocks data
       ++ optional_detail "Languages: " (opt_chain (personal data) languages)
       ++ optional_detail "Visa Status: " (opt_chain (personal data) visaStatus)
       ++ List.map (bullet 60) (or_empty (opt_chain (personal data) other)))
      n.
Proof.
  unfold education_header_position.
  rewrite <- !Nat.add_assoc.
  rewrite (Nat.add_assoc 3), layout_after_summary.
  change (nth_error ([header "EXPERIENCE"] ++ ?l) (1 + ?k))
    with (nth_error l k).
  rewrite <- (length_concat_mapi_from (job_blocks data) job_span
                (job_blocks_length data) (or_empty (experience data)) 0).
  apply nth_error_app_skip.
Qed.

(** X1. For a record with experience list [jobs] and a job [job] at
    [jobIndex], render returns, and the two blocks at the place of that job
    are its heading lines: the bold title (or "Job Title") followed by the
    run of 41 blanks and the dates (or "Dates"), with trailing gap 60, then
    the company (or "Company Name") with trailing gap 80. *)
Theorem job_heading_lines (data : ResumeRecord) (jobs : list Job)
  (jobIndex : nat) (job : Job) :
  experience data = Some jobs ->
  nth_error jobs jobIndex = Some job ->
  exists blocks,
    render data = Ok blocks /\
    nth_error blocks (job_position data jobIndex)
    = Some (mkParagraph None (mkSpacing None (Some 60)) None
              [ mkTextRun (or_default (title job) "Job Title") 22 true false;
                mkTextRun (dates_padding +++ or_default (dates job) "Dates")
                  22 false false ]) /\
    nth_error blocks (S (job_position data jobIndex))
    = Some (mkParagraph None (mkSpacing None (Some 80)) None
              [ mkTextRun (or_default (company job) "Company Name")
                  22 false false ]) /\
    String.length dates_padding = 41%nat.
Proof.
  intros Hexp Hj. exists (layout data).
  split; [apply render_layout|].
  assert (Hj' : nth_error (or_empty (experience data)) jobIndex = Some job)
    by now rewrite Hexp.
  split; [|split; [|reflexivity]].
  - rewrite <- (Nat.add_0_r (job_position data jobIndex)).
    now apply (layout_job_block data jobIndex 0 job).
  - rewrite <- Nat.add_1_r.
    now apply (layout_job_block data jobIndex 1 job).
Qed.

Lemma job_heading_lines_witness :
  exists blocks,
    render three_jobs = Ok blocks /\
    nth_error blocks (job_position three_jobs 1)
    = Some (mkParagraph None (mkSpacing None (Some 60)) None
              [ mkTextRun "Intern" 22 true false;
                mkTextRun (dates_padding +++ "Dates") 22 false false ]) /\
    nth_error blocks (S (job_position three_jobs 1))
    = Some (mkParagraph None (mkSpacing None (Some 80)) None
              [ mkTextRun "Company Name" 22 false false ]) /\
    String.length dates_padding = 41%nat.
Proof.
  apply (job_heading_lines three_jobs
           [ mkJob (Some "Engineer") (Some "2019 - 2021") (Some "Acme")
               (Some ["built"; "shipped"]);
             mkJob (Some "Intern") None None None;
             mkJob (Some "Lead") None (Some "Initech") (Some ["led"]) ]
           1 (mkJob (Some "Intern") None None None));
    reflexivity.
Defined.

(** X2. For a record with education list [edus], the EDUCATON header
    follows the blocks of the jobs, and for the entry [edu] at [index] the
    two blocks at its place are the bold degree (or "Degree") with
    trailing gap 60 and the line "institution | year" (with the
    placeholders "Institution" and "Year"), whose trailing gap is 180 for
    the last entry and 120 for every other entry. *)
Theorem education_entries (data : ResumeRecord) (edus : list Education)
  (index : nat) (edu : Education) :
  education data = Some edus ->
  nth_error edus index = Some edu ->
  exists blocks,
    render data = Ok blocks /\
    nth_error blocks (education_header_position data)
    = Some (header "EDUCATON") /\
    nth_error blocks (education_position data index)
    = Some (mkParagraph None (mkSpacing None (Some 60)) None
              [ mkTextRun (or_default (degree edu) "Degree") 22 true false ]) /\
    nth_error blocks (S (education_position data index))
    = Some (mkParagraph None
              (mkSpacing None
                 (Some (if (S index =? List.length edus)%nat
                        then 180 else 120))) None
              [ mkTextRun (or_default (institution edu) "Institution"
                           +++ " | " +++ or_default (year edu) "Year")
                  22 false false ]).
Proof.
  intros Hedu Hk. exists (layout data).
  split; [apply render_layout|].
  assert (Hk' : nth_error (or_empty (education data)) index = Some edu)
    by now rewrite Hedu.
  assert (Hlen : forall x i, List.length (education_blocks data x i) = 2%nat)
    by reflexivity.
  assert (Hlt : (index < List.length edus)%nat)
    by (apply nth_error_Some; now rewrite Hk).
  assert (Hfirst : forall n,
             (n < 2)%nat ->
             nth_error (layout data) (education_position data index + n)
             = nth_error (education_blocks data edu (Z.of_nat index)) n).
  { intros n Hn. unfold education_position.
    rewrite <- !Nat.add_assoc, layout_after_jobs.
    change (nth_error ([header "EDUCATON"] ++ ?l) (1 + ?k))
      with (nth_error l k).
    destruct (nth_error (education_blocks data edu (Z.of_nat index)) n)
      as [b|] eqn:Hb.
    - apply nth_error_app_Some.
      pose proof (nth_error_concat_mapi_from (education_blocks data)
                    (fun _ => 2%nat) Hlen _ 0 index edu n b Hk' Hb) as H.
      replace (list_sum
                 (List.map (fun _ : Education => 2%nat)
                    (firstn index (or_empty (education data)))))
        with (2 * index)%nat in H; [exact H|].
      rewrite Hedu. cbn [or_empty]. clear -Hlt. revert edus Hlt.
      induction index as [|k IH]; intros [|e edus] Hlt; simpl in *;
        try lia.
      rewrite <- (IH edus) by lia. lia.
    - apply nth_error_None in Hb. rewrite Hlen in Hb. lia. }
  split; [|split].
  - rewrite <- (Nat.add_0_r (education_header_position data)).
    now rewrite layout_after_jobs.
  - rewrite <- (Nat.add_0_r (education_position data index)).
    rewrite Hfirst by lia. reflexivity.
  - rewrite <- Nat.add_1_r. rewrite Hfirst by lia.
    unfold education_blocks, array_length, run. rewrite Hedu.
    cbn [or_empty nth_error]. do 4 f_equal.
    destruct (Nat.eqb_spec (S index) (List.length edus));
      destruct (Z.eqb_spec (Z.of_nat index) (Z.of_nat (List.length edus) - 1));
      try reflexivity; lia.
Qed.

Lemma education_entries_witness :
  exists blocks,
    render three_jobs = Ok blocks /\
    nth_error blocks (education_header_position three_jobs)
    = Some (header "EDUCATON") /\
    nth_error blocks (education_position three_jobs 0)
    = Some (mkParagraph None (mkSpacing None (Some 60)) None
              [ mkTextRun "BSc" 22 true false ]) /\
    nth_error blocks (S (education_position three_jobs 0))
    = Some (mkParagraph None (mkSpacing None (Some 180)) None
              [ mkTextRun "MIT | 2018" 22 false false ]).
Proof.
  apply (education_entries three_jobs
           [mkEducation (Some "BSc") (Some "MIT") (Some "2018")] 0
           (mkEducation (Some "BSc") (Some "MIT") (Some "2018")));
    reflexivity.
Defined.

(* ===================================================================== *)
(** * Empty strings and absent objects                                    *)
(* ===================================================================== *)





(** X4. The optional chaining on [data.skills] and [data.personal] makes
    an absent object render like the empty object [{}]: the record without
    skills (without personal) and the record whose skills (personal) has
    no key render to the same block sequence. *)
Theorem absent_object_as_empty :
  (forall data,
      same_blocks (with_skills None data)
        (with_skills (Some (mkSkills None None)) data)) /\
  (forall data,
      same_blocks (with_personal None data)
        (with_personal (Some (mkPersonal None None None None)) data)).
Proof.
  split; intros; apply same_layout; reflexivity.
Qed.

(* ===================================================================== *)
(** * The shape of the block sequence                                     *)
(* ===================================================================== *)

Lemma filter_headed_plain (l : list Paragraph) :
  Forall plain l -> filter headed l = [].
Proof.
  induction 1 as [|b l Hb _ IH]; simpl; [reflexivity|].
  unfold headed. now rewrite Hb.
Qed.

Lemma filter_headed_section (label : string) (entries : option (list string)) :
  filter headed (section_blocks label entries) = optional_header label entries.
Proof.
  unfold section_blocks, optional_header.
  destruct (or_empty entries) as [|item items]; [reflexivity|].
  cbn [filter headed header before spacing]. f_equal.
  apply filter_headed_plain, Forall_mapi_from. reflexivity.
Qed.

(** X5. The section headers of every rendered sequence, in order, are
    EXPERIENCE and EDUCATON, then CERTIFICATIONS and KEY ACHIEVEMENTS, each
    only when its list is non-empty, then SKILLS and PERSONAL DETAILS; the
    four fixed headers occur once each, whatever the record holds, and no
    other block has a leading gap. *)
Theorem header_sequence (data : ResumeRecord) :
  exists blocks,
    render data = Ok blocks /\
    filter headed blocks
    = [ header "EXPERIENCE"; header "EDUCATON" ]
      ++ optional_header "CERTIFICATIONS" (certifications data)
      ++ optional_header "KEY ACHIEVEMENTS" (achievements data)
      ++ [ header "SKILLS"; header "PERSONAL DETAILS" ].
Proof.
  exists (layout data). split; [apply render_layout|].
  unfold layout. rewrite !filter_app, !filter_headed_section.
  rewrite (filter_headed_plain (mapi _ _))
    by (apply Forall_mapi_from; reflexivity).
  rewrite (filter_headed_plain _ (plain_job_blocks data)).
  rewrite (filter_headed_plain _ (plain_education_blocks data)).
  rewrite !(filter_headed_plain _ (plain_optional_detail _ _)).
  rewrite (filter_headed_plain (List.map _ _)).
  - reflexivity.
  - apply Forall_forall. intros b Hb. apply in_map_iff in Hb.
    destruct Hb as [detail [<- _]]. reflexivity.
Qed.

Lemma section_blocks_length (label : string) (entries : option (list string)) :
  List.length (section_blocks label entries) = section_count entries.
Proof.
  unfold section_blocks, section_count, mapi.
  destruct (or_empty entries) as [|item items]; [reflexivity|].
  cbn [List.length]. now rewrite mapi_from_length.
Qed.

Lemma optional_detail_length (label : string) (value : option string) :
  List.length (optional_detail label value) = detail_count value.
Proof.
  unfold optional_detail, detail_count.
  destruct value as [v|]; [|reflexivity]. now destruct (truthy v).
Qed.

Lemma list_sum_const {A : Type} (n : nat) (l : list A) :
  list_sum (List.map (fun _ => n) l) = (n * List.length l)%nat.
Proof.
  induction l as [|a l IH]; simpl; [lia|]. rewrite IH. lia.
Qed.

(** X6. The number of blocks of a rendered sequence is fixed by the sizes
    of the lists of the record and by which of languages and visaStatus
    is a non-empty string: ten fixed blocks, one per summary paragraph,
    two per job plus one per responsibility, two per education entry, one
    per entry plus one header for a non-empty certifications or
    achievements list, and one per entry of personal.other.  No text of the
    record changes the count, and no rendering is shorter than ten
    blocks. *)
Theorem number_of_blocks (data : ResumeRecord) :
  exists blocks,
    render data = Ok blocks /\
    List.length blocks = block_count data /\
    (10 <= List.length blocks)%nat.
Proof.
  exists (layout data). split; [apply render_layout|].
  assert (H : List.length (layout data) = block_count data).
  { unfold layout, block_count, mapi. rewrite !length_app.
    rewrite mapi_from_length.
    rewrite (length_concat_mapi_from (job_blocks data) job_span
               (job_blocks_length data)).
    rewrite (length_concat_mapi_from (education_blocks data)
               (fun _ => 2%nat) (fun _ _ => eq_refl)).
    rewrite list_sum_const, !section_blocks_length, !optional_detail_length.
    rewrite length_map. simpl. lia. }
  split; [exact H|]. rewrite H. unfold block_count. lia.
Qed.

Ltac shape_literal :=
  unfold body_shape, no_underline, bullet_item; cbn;
  split; [discriminate|];
  split;
  [ intros r Hr; repeat (destruct Hr as [<-|Hr]; [reflexivity|]);
    contradiction
  | intros n Hn; first [discriminate Hn | eexists; eexists; reflexivity] ].

Ltac each_block tac :=
  repeat first [apply Forall_nil | apply Forall_cons; [tac|]].

Lemma body_shape_rest (data : ResumeRecord) :
  Forall body_shape (skipn 3 (layout data)).
Proof.
  unfold layout.
  match goal with
  | |- Forall _ (skipn 3 (_ ++ ?l)) => change (Forall body_shape l)
  end.
  repeat (apply Forall_app; split).
  - apply Forall_mapi_from. intros para index. shape_literal.
  - each_block shape_literal.
  - apply Forall_concat, Forall_mapi_from. intros job jobIndex.
    unfold job_blocks. apply Forall_app. split.
    + each_block shape_literal.
    + apply Forall_mapi_from. intros resp respIndex.
      unfold responsibility_block. shape_literal.
  - each_block shape_literal.
  - apply Forall_concat, Forall_mapi_from. intros edu index.
    each_block shape_literal.
  - unfold section_blocks.
    destruct (or_empty (certifications data)); [apply Forall_nil|].
    apply Forall_cons; [shape_literal|].
    apply Forall_mapi_from. intros item index. unfold closing_block.
    shape_literal.
  - unfold section_blocks.
    destruct (or_empty (achievements data)); [apply Forall_nil|].
    apply Forall_cons; [shape_literal|].
    apply Forall_mapi_from. intros item index. unfold closing_block.
    shape_literal.
  - each_block shape_literal.
  - unfold optional_detail.
    destruct (opt_chain (personal data) languages) as [v|]; [|apply Forall_nil].
    destruct (truthy v); each_block shape_literal.
  - unfold optional_detail.
    destruct (opt_chain (personal data) visaStatus) as [v|]; [|apply Forall_nil].
    destruct (truthy v); each_block shape_literal.
  - apply Forall_forall. intros b Hb. apply in_map_iff in Hb.
    destruct Hb as [detail [<- _]]. shape_literal.
Qed.

Lemma body_shape_from_third (data : ResumeRecord) (i : nat) (b : Paragraph) :
  nth_error (layout data) (3 + i) = Some b -> body_shape b.
Proof.
  intros H. pose proof (body_shape_rest data) as Hall.
  rewrite Forall_forall in Hall. apply Hall.
  apply (nth_error_In _ i). now rewrite nth_error_skipn.
Qed.

(** X7. In the document built for any record, every paragraph that refers
    to a list style refers to the style "bullet-list" at level 0, which the
    document defines, and is a plain list item: no alignment, no leading
    gap, one run of size 22 that is neither bold nor underlined. *)
Theorem list_styles_resolve (data : ResumeRecord) :
  exists doc,
    generateWordDocument data = Ok doc /\
    forall sec p n,
      In sec (sections doc) ->
      In p (section_children sec) ->
      numbering p = Some n ->
      resolves doc n /\ n = mkNumbering "bullet-list" 0 /\
      exists gap t,
        p = mkParagraph None (mkSpacing None (Some gap))
              (Some (mkNumbering "bullet-list" 0))
              [mkTextRun t 22 false false].
Proof.
  unfold generateWordDocument. rewrite documentChildren_layout. cbn [bind].
  eexists. split; [reflexivity|].
  intros sec p n Hsec Hp Hn. cbn [sections] in Hsec.
  destruct Hsec as [<-|[]]. cbn [section_children] in Hp.
  apply In_nth_error in Hp. destruct Hp as [i Hi].
  assert (Hitem : bullet_item p).
  { destruct i as [|[|[|i]]].
    - cbn in Hi. injection Hi as <-. discriminate Hn.
    - cbn in Hi. injection Hi as <-. discriminate Hn.
    - cbn in Hi. injection Hi as <-. discriminate Hn.
    - destruct (body_shape_from_third data i p Hi) as (_ & _ & H).
      now apply (H n). }
  destruct Hitem as (gap & t & ->). cbn in Hn. injection Hn as <-.
  split; [|split; [reflexivity|now exists gap, t]].
  exists bullet_list.
  exists (mkLevel 0 BULLET bullet_glyph LEFT (mkIndent 720 360)).
  cbn. auto.
Qed.

Lemma list_styles_resolve_witness :
  exists doc p,
    generateWordDocument three_jobs = Ok doc /\
    numbering p = Some (mkNumbering "bullet-list" 0) /\
    resolves doc (mkNumbering "bullet-list" 0).
Proof.
  destruct (list_styles_resolve three_jobs) as (doc & Hdoc & H).
  exists doc, (bullet 60 "built"). split; [exact Hdoc|].
  split; [reflexivity|].
  unfold generateWordDocument in Hdoc.
  rewrite documentChildren_layout in Hdoc. cbn [bind] in Hdoc.
  injection Hdoc as <-.
  refine (proj1 (H _ (bullet 60 "built") _ (or_introl eq_refl) _ eq_refl)).
  cbn. in_literal.
Defined.

(** X8. In every rendered sequence the centred blocks are exactly the
    first three (name, contact line and email), and the only block with an
    underlined run is the third, the email. *)
Theorem centred_and_underlined (data : ResumeRecord) :
  exists blocks,
    render data = Ok blocks /\
    forall i b,
      nth_error blocks i = Some b ->
      (alignment b = Some CENTER <-> (i < 3)%nat) /\
      ((exists r, In r (children b) /\ underline r = true) <-> i = 2%nat).
Proof.
  exists (layout data). split; [apply render_layout|].
  intros i b Hi. destruct i as [|[|[|i]]].
  - cbn in Hi. injection Hi as <-. cbn. split; split; try lia; auto.
    intros (r & [<-|[]] & Hr). discriminate Hr.
  - cbn in Hi. injection Hi as <-. cbn. split; split; try lia; auto.
    intros (r & [<-|[]] & Hr). discriminate Hr.
  - cbn in Hi. injection Hi as <-. cbn. split; split; try lia; auto.
    intros _. eexists. split; [left; reflexivity|reflexivity].
  - destruct (body_shape_from_third data i b Hi) as (Hc & Hu & _).
    split; split; try lia; try contradiction.
    intros (r & Hr & Hur). rewrite (Hu r Hr) in Hur. discriminate Hur.
Qed.

(** X9. Every rendered sequence ends with the personal details: the
    PERSONAL DETAILS header, the list item "Nationality: " followed by the
    nationality, or by "To be added" when the nationality is absent or
    empty, then the list item "Languages: " with the languages and the
    list item "Visa Status: " with the visa status, each only for a
    non-empty string and in this order, then one list item per entry of
    personal.other with the entry as its text, in input order; each of
    these list items has the trailing gap 60. *)
Theorem personal_details_tail (data : ResumeRecord) :
  exists blocks pre,
    render data = Ok blocks /\
    blocks
    = pre
      ++ [ mkParagraph None (mkSpacing (Some 120) (Some 120)) None
             [ mkTextRun "PERSONAL DETAILS" 24 true false ];
           mkParagraph None (mkSpacing None (Some 60))
             (Some (mkNumbering "bullet-list" 0))
             [ mkTextRun
                 ("Nationality: "
                  +++ match personal data with
                      | Some p =>
                          match nationality p with
                          | Some n => if String.eqb n "" then "To be added"
                                      else n
                          | None => "To be added"
                          end
                      | None => "To be added"
                      end)
                 22 false false ] ]
      ++ match personal data with
         | Some p =>
             match languages p with
             | Some v =>
                 if String.eqb v "" then []
                 else [ mkParagraph None (mkSpacing None (Some 60))
                          (Some (mkNumbering "bullet-list" 0))
                          [ mkTextRun ("Languages: " +++ v) 22 false false ] ]
             | None => []
             end
         | None => []
         end
      ++ match personal data with
         | Some p =>
             match visaStatus p with
             | Some v =>
                 if String.eqb v "" then []
                 else [ mkParagraph None (mkSpacing None (Some 60))
                          (Some (mkNumbering "bullet-list" 0))
                          [ mkTextRun ("Visa Status: " +++ v)
                              22 false false ] ]
             | None => []
             end
         | None => []
         end
      ++ List.map
           (fun detail =>
              mkParagraph None (mkSpacing None (Some 60))
                (Some (mkNumbering "bullet-list" 0))
                [ mkTextRun detail 22 false false ])
           match personal data with
           | Some p => match other p with
                       | Some details => details
                       | None => []
                       end
           | None => []
           end.
Proof.
  exists (layout data).
  exists (heading_blocks data
          ++ mapi (summary_block data) (or_empty (summary data))
          ++ [ header "EXPERIENCE" ]
          ++ List.concat (mapi (job_blocks data) (or_empty (experience data)))
          ++ [ header "EDUCATON" ]
          ++ List.concat
               (mapi (education_blocks data) (or_empty (education data)))
          ++ section_blocks "CERTIFICATIONS" (certifications data)
          ++ section_blocks "KEY ACHIEVEMENTS" (achievements data)
          ++ firstn 3 (skills_blocks data)).
  split; [apply render_layout|].
  unfold layout. rewrite <- !app_assoc.
  do 8 (apply (f_equal (app _))).
  unfold skills_blocks, optional_detail, or_default, opt_chain, truthy.
  destruct (personal data) as [p|]; [|reflexivity].
  destruct (nationality p) as [n|]; destruct (languages p) as [l|];
    destruct (visaStatus p) as [v|]; destruct (other p) as [details|];
    try destruct (String.eqb n ""); try destruct (String.eqb l "");
    try destruct (String.eqb v ""); reflexivity.
Qed.

Lemma personal_details_tail_witness :
  exists blocks pre,
    render with_details = Ok blocks /\
    blocks
    = pre
      ++ [ mkParagraph None (mkSpacing (Some 120) (Some 120)) None
             [ mkTextRun "PERSONAL DETAILS" 24 true false ];
           mkParagraph None (mkSpacing None (Some 60))
             (Some (mkNumbering "bullet-list" 0))
             [ mkTextRun "Nationality: Indian" 22 false false ];
           mkParagraph None (mkSpacing None (Some 60))
             (Some (mkNumbering "bullet-list" 0))
             [ mkTextRun "Languages: English, Hindi" 22 false false ];
           mkParagraph None (mkSpacing None (Some 60))
             (Some (mkNumbering "bullet-list" 0))
             [ mkTextRun "Married" 22 false false ];
           mkParagraph None (mkSpacing None (Some 60))
             (Some (mkNumbering "bullet-list" 0))
             [ mkTextRun "Driving licence" 22 false false ] ].
Proof.
  exact (personal_details_tail with_details).
Defined.

(* ===================================================================== *)
(** * More on the reply of the completion endpoint                        *)
(* ===================================================================== *)

Lemma match_braces_canonical (s span : string) :
  match_braces s = Some span ->
  exists pre mid post,
    s = pre +++ "{" +++ mid +++ "}" +++ post /\
    span = "{" +++ mid +++ "}" /\
    occurs "{" pre = false /\ occurs "}" post = false.
Proof.
  intros H.
  destruct (match_braces_cases s) as [(pre & mid & post & E & Hpre & Hpost)|Hn].
  - exists pre, mid, post. repeat split; try assumption.
    rewrite E, (match_braces_span pre mid post Hpre Hpost) in H.
    now injection H as <-.
  - rewrite (match_braces_none s Hn) in H. discriminate.
Qed.

(** Two ways to split one text: the shorter first part is a prefix of the
    longer one. *)
Lemma append_split (a b a' b' : string) :
  a +++ b = a' +++ b' ->
  (String.length a <= String.length a')%nat ->
  exists z, a' = a +++ z /\ b = z +++ b'.
Proof.
  revert a'. induction a as [|c a IH]; intros a' E Hlen.
  - exists a'. now split.
  - destruct a' as [|c' a']; [simpl in Hlen; lia|].
    simpl in E. injection E as -> E.
    destruct (IH a' E) as (z & -> & ->); [simpl in Hlen; lia|].
    now exists z.
Qed.

Lemma length_append (a b : string) :
  String.length (a +++ b) = (String.length a + String.length b)%nat.
Proof.
  induction a as [|c a IH]; simpl; [reflexivity|]. now rewrite IH.
Qed.

Lemma append_assoc (a b c : string) : (a +++ b) +++ c = a +++ b +++ c.
Proof.
  induction a as [|x a IH]; simpl; [reflexivity|]. now rewrite IH.
Qed.

(** A non-empty end of a text that ends with [c] has [c] in it. *)
Lemma occurs_last (c : ascii) (a z b : string) :
  a +++ z = b +++ String c EmptyString ->
  z <> EmptyString ->
  occurs c z = true.
Proof.
  revert b. induction a as [|x a IH]; intros b E Hz; simpl in E.
  - rewrite E, occurs_append. simpl. rewrite Ascii.eqb_refl.
    apply orb_true_r.
  - destruct b as [|y b]; simpl in E.
    + injection E as _ E. destruct a; destruct z; try discriminate.
      now destruct Hz.
    + injection E as _ E. now apply (IH b).
Qed.

(** X10. The span the pattern selects is the largest brace-delimited part
    of the text.  It lies in the text, starts with an opening and ends
    with a closing brace, and the pattern applied to the span selects the
    span again; every part of the text that starts with an opening brace
    and ends with a closing brace starts no earlier and ends no later
    than the span. *)
Theorem selected_span_is_largest (s span : string) :
  match_braces s = Some span ->
  exists pre mid post,
    s = pre +++ span +++ post /\
    span = "{" +++ mid +++ "}" /\
    match_braces span = Some span /\
    forall pre' mid' post',
      s = pre' +++ "{" +++ mid' +++ "}" +++ post' ->
      (String.length pre <= String.length pre')%nat /\
      (String.length post <= String.length post')%nat.
Proof.
  intros H.
  destruct (match_braces_canonical s span H)
    as (pre & mid & post & E & -> & Hpre & Hpost).
  exists pre, mid, post.
  split; [now rewrite append_assoc, append_assoc|].
  split; [reflexivity|].
  split; [apply (match_braces_span EmptyString mid EmptyString); reflexivity|].
  intros pre' mid' post' E'. rewrite E in E'. split.
  - destruct (Nat.le_gt_cases (String.length pre) (String.length pre'))
      as [Hle|Hgt]; [exact Hle|exfalso].
    symmetry in E'.
    destruct (append_split _ _ _ _ E') as (z & Ez & Ez'); [lia|].
    rewrite Ez, length_append in Hgt.
    destruct z as [|c z]; [simpl in Hgt; lia|].
    simpl in Ez'. injection Ez' as <- _.
    rewrite Ez, occurs_append in Hpre. simpl in Hpre.
    rewrite orb_true_r in Hpre. discriminate.
  - destruct (Nat.le_gt_cases (String.length post) (String.length post'))
      as [Hle|Hgt]; [exact Hle|exfalso].
    assert (E2 : (pre +++ "{" +++ mid +++ "}") +++ post
                 = (pre' +++ "{" +++ mid' +++ "}") +++ post').
    { now rewrite !append_assoc. }
    assert (Hlen : (String.length (pre +++ "{" +++ mid +++ "}")
                    <= String.length (pre' +++ "{" +++ mid' +++ "}"))%nat).
    { apply (f_equal String.length) in E2.
      rewrite !length_append in E2. rewrite !length_append. simpl in *. lia. }
    destruct (append_split _ _ _ _ E2 Hlen) as (z & Ez & Ez').
    assert (Hz : z <> EmptyString).
    { intros ->. simpl in Ez'. subst post'. lia. }
    assert (Ez2 : (pre +++ "{" +++ mid +++ "}") +++ z
                  = (pre' +++ "{" +++ mid') +++ String "}" EmptyString).
    { rewrite <- Ez. now rewrite !append_assoc. }
    pose proof (occurs_last "}" _ z _ Ez2 Hz) as Hocc.
    rewrite Ez', occurs_append, Hocc in Hpost. discriminate.
Qed.

Lemma selected_span_is_largest_witness :
  exists pre mid post,
    stray_brace_reply
    = pre +++ ("{" +++ quoted "name" +++ ":" +++ quoted "JANE DOE"
               +++ "} (done :-}") +++ post /\
    "{" +++ quoted "name" +++ ":" +++ quoted "JANE DOE" +++ "} (done :-}"
    = "{" +++ mid +++ "}" /\
    match_braces ("{" +++ quoted "name" +++ ":" +++ quoted "JANE DOE"
                  +++ "} (done :-}")
    = Some ("{" +++ quoted "name" +++ ":" +++ quoted "JANE DOE"
            +++ "} (done :-}") /\
    forall pre' mid' post',
      stray_brace_reply = pre' +++ "{" +++ mid' +++ "}" +++ post' ->
      (String.length pre <= String.length pre')%nat /\
      (String.length post <= String.length post')%nat.
Proof.
  apply (selected_span_is_largest stray_brace_reply). reflexivity.
Defined.

(** X11. What a completion text can lead to.  A value the call returns is
    the parse of the whole text or, when the text does not parse, the
    parse of the span the pattern selects.  The call fails only when the
    text does not parse: with the parser's exception when the pattern
    selects a span that does not parse either, and with the error "Failed
    to parse ChatGPT response as JSON" when the text has no opening brace
    followed by a closing brace.  It never fails in another way. *)
Theorem reply_outcomes {JSONValue : Type}
  (JSON_parse : string -> option JSONValue) (text : string) :
  (forall v,
      callChatGPTAPI JSON_parse (completion text) = Ok v ->
      JSON_parse text = Some v \/
      (JSON_parse text = None /\
       exists span, match_braces text = Some span /\
                    JSON_parse span = Some v)) /\
  (forall e,
      callChatGPTAPI JSON_parse (completion text) = Throw e ->
      JSON_parse text = None /\
      ((e = SyntaxError /\
        exists span, match_braces text = Some span /\
                     JSON_parse span = None) \/
       (e = Error "Failed to parse ChatGPT response as JSON" /\
        forall pre mid post,
          text <> pre +++ "{" +++ mid +++ "}" +++ post))).
Proof.
  rewrite callChatGPTAPI_completion.
  destruct (JSON_parse text) as [v0|] eqn:Hdirect.
  - rewrite (parse_reply_direct _ _ _ Hdirect). split.
    + intros v H. left. congruence.
    + intros e H. discriminate H.
  - rewrite (parse_reply_fallback _ _ Hdirect).
    destruct (match_braces text) as [span|] eqn:Hspan.
    + unfold JSON_parse_or_throw.
      destruct (JSON_parse span) as [v1|] eqn:Hparse; split.
      * intros v H. injection H as <-. right. eauto.
      * intros e H. discriminate H.
      * intros v H. discriminate H.
      * intros e H. injection H as <-. split; [reflexivity|]. left. eauto.
    + split.
      * intros v H. discriminate H.
      * intros e H. injection H as <-. split; [reflexivity|]. right.
        split; [reflexivity|].
        intros pre mid post E.
        destruct (match_braces_complete pre mid post) as [sp Hsp].
        rewrite <- E in Hsp. congruence.
Qed.

Lemma reply_outcomes_witness :
  Json.parse stray_brace_reply = None /\
  ((SyntaxError = SyntaxError /\
    exists span, match_braces stray_brace_reply = Some span /\
                 Json.parse span = None) \/
   (SyntaxError = Error "Failed to parse ChatGPT response as JSON" /\
    forall pre mid post,
      stray_brace_reply <> pre +++ "{" +++ mid +++ "}" +++ post)).
Proof.
  apply (proj2 (reply_outcomes Json.parse stray_brace_reply) SyntaxError).
  reflexivity.
Defined.

(** X12. How a successful response is read.  When its body cannot be read
    as JSON the exception of the reader propagates; when the body has no
    choices, an empty list of choices, or a first choice without message,
    the call throws a TypeError.  Otherwise the outcome is that of the
    content of the first choice alone: the status, an [error] key in the
    body and the further choices play no role. *)
Theorem completion_reading {JSONValue : Type}
  (JSON_parse : string -> option JSONValue) (response : Response) :
  ok response = true ->
  (forall e, json response = Throw e ->
             callChatGPTAPI JSON_parse response = Throw e) /\
  (forall body,
      json response = Ok body ->
      choices body = None \/ choices body = Some [] ->
      callChatGPTAPI JSON_parse response = Throw TypeError) /\
  (forall body choice rest,
      json response = Ok body ->
      choices body = Some (choice :: rest) ->
      (choice_message choice = None ->
       callChatGPTAPI JSON_parse response = Throw TypeError) /\
      (forall m,
          choice_message choice = Some m ->
          callChatGPTAPI JSON_parse response
          = callChatGPTAPI JSON_parse (completion (content m)))).
Proof.
  intros Hok. unfold callChatGPTAPI at 1 2 3 4. rewrite Hok. cbn [negb].
  split; [|split].
  - now intros e ->.
  - intros body -> H.
    assert (Hc : first_choice_content body = Throw TypeError)
      by (unfold first_choice_content; destruct H as [H|H]; now rewrite H).
    cbn [bind]. now rewrite Hc.
  - intros body choice rest -> Hc. split.
    + intros Hm.
      assert (Hf : first_choice_content body = Throw TypeError)
        by (unfold first_choice_content; rewrite Hc; cbn; now rewrite Hm).
      cbn [bind]. now rewrite Hf.
    + intros m Hm. rewrite callChatGPTAPI_completion.
      assert (Hf : first_choice_content body = Ok (content m))
        by (unfold first_choice_content; rewrite Hc; cbn; now rewrite Hm).
      cbn [bind]. rewrite Hf. cbn [bind].
      now destruct (parse_reply JSON_parse (content m)).
Qed.

Lemma completion_reading_witness :
  callChatGPTAPI Json.parse
    (mkResponse true 200 (Ok (mkResponseBody None (Some []))))
  = Throw TypeError.
Proof.
  apply (proj1 (proj2 (completion_reading Json.parse
                         (mkResponse true 200
                            (Ok (mkResponseBody None (Some []))))
                         eq_refl))
           (mkResponseBody None (Some [])) eq_refl).
  right. reflexivity.
Defined.

(* ===================================================================== *)
(** * The name of the download                                            *)
(* ===================================================================== *)

Lemma extension_rest_occurs (s : string) :
  extension_rest s = true <->
  occurs "." s = false /\ occurs "/" s = false.
Proof.
  induction s as [|c s IH]; simpl; [tauto|].
  unfold extension_char.
  rewrite andb_true_iff, IH, negb_true_iff, !orb_false_iff. tauto.
Qed.

Lemma extension_tail_spec (s : string) :
  extension_tail s = true <->
  s <> EmptyString /\ occurs "." s = false /\ occurs "/" s = false.
Proof.
  destruct s as [|c s].
  - simpl. split; [discriminate|]. now intros [H _].
  - change (extension_tail (String c s)) with (extension_rest (String c s)).
    rewrite extension_rest_occurs. split; [|tauto].
    intros H. split; [discriminate|exact H].
Qed.

(** Either the name ends with an extension, which is cut off, or it is
    left as it is. *)
Lemma strip_extension_cases (s : string) :
  (exists stem ext,
      s = stem +++ "." +++ ext /\ extension_tail ext = true /\
      strip_extension s = stem) \/
  ((forall stem ext, s = stem +++ "." +++ ext -> extension_tail ext = false) /\
   strip_extension s = s).
Proof.
  induction s as [|c s IH].
  - right. split; [|reflexivity]. intros [|x stem] ext E; discriminate E.
  - cbn [strip_extension].
    destruct (Ascii.eqb_spec c ".") as [->|Hc]; cbn [andb].
    + destruct (extension_tail s) eqn:Ht.
      * left. now exists EmptyString, s.
      * destruct IH as [(stem & ext & E & Hext & Hs)|[Hnone Hs]].
        -- left. exists (String "." stem), ext. rewrite Hs, E at 1.
           now repeat split.
        -- right. rewrite Hs. split; [|reflexivity].
           intros [|x stem] ext E; simpl in E.
           ++ injection E as <-. exact Ht.
           ++ injection E as _ E. now apply (Hnone stem ext).
    + destruct IH as [(stem & ext & E & Hext & Hs)|[Hnone Hs]].
      * left. exists (String c stem), ext. rewrite Hs, E at 1.
        now repeat split.
      * right. rewrite Hs. split; [|reflexivity].
        intros [|x stem] ext E; simpl in E.
        -- injection E as E _. now destruct Hc.
        -- injection E as _ E. now apply (Hnone stem ext).
Qed.

Lemma strip_extension_cut (stem ext : string) :
  extension_tail ext = true ->
  strip_extension (stem +++ "." +++ ext) = stem.
Proof.
  intros Hext. induction stem as [|c stem IH].
  - simpl. now rewrite Hext.
  - change (strip_extension (String c stem +++ "." +++ ext))
      with (if (Ascii.eqb c "." && extension_tail (stem +++ "." +++ ext))%bool
            then EmptyString
            else String c (strip_extension (stem +++ "." +++ ext))).
    rewrite IH.
    replace (extension_tail (stem +++ "." +++ ext)) with false;
      [now rewrite andb_false_r|].
    symmetry. apply not_true_is_false. intros H.
    apply extension_tail_spec in H. destruct H as (_ & H & _).
    rewrite occurs_append in H. simpl in H.
    rewrite orb_true_r in H. discriminate.
Qed.

(** X13. The name of the download is the name of the upload without its
    last extension.  A name [stem.ext], where [ext] is not empty and has
    no point and no slash, is cut to [stem], whatever [stem] holds; one
    extension only is removed.  A name without such an ending (no point, a
    point at the very end, or a slash after the last point) is left as it
    is.  In every case the result is a prefix of the name. *)
Theorem strip_extension_spec (s : string) :
  (forall stem ext,
      s = stem +++ "." +++ ext ->
      ext <> EmptyString -> occurs "." ext = false -> occurs "/" ext = false ->
      strip_extension s = stem) /\
  ((forall stem ext,
       s = stem +++ "." +++ ext ->
       ext = EmptyString \/ occurs "." ext = true \/ occurs "/" ext = true) ->
   strip_extension s = s) /\
  (exists rest, s = strip_extension s +++ rest).
Proof.
  split; [|split].
  - intros stem ext -> Hne Hp Hs. apply strip_extension_cut.
    now apply extension_tail_spec.
  - intros Hnone.
    destruct (strip_extension_cases s)
      as [(stem & ext & E & Hext & _)|[_ Hs]]; [|exact Hs].
    apply extension_tail_spec in Hext. destruct Hext as (Hne & Hp & Hsl).
    destruct (Hnone stem ext E) as [H|[H|H]]; congruence.
  - destruct (strip_extension_cases s)
      as [(stem & ext & E & _ & Hs)|[_ Hs]]; rewrite Hs.
    + now exists ("." +++ ext).
    + exists EmptyString. clear. induction s as [|c s IH]; simpl;
        [reflexivity|now rewrite <- IH].
Qed.

Lemma strip_extension_spec_witness :
  strip_extension "resume.final.pdf" = "resume.final" /\
  strip_extension "resume" = "resume".
Proof.
  split.
  - apply (proj1 (strip_extension_spec "resume.final.pdf")
             "resume.final" "pdf"); solve [reflexivity | discriminate].
  - apply (proj1 (proj2 (strip_extension_spec "resume"))).
    intros stem ext E. apply (f_equal (occurs ".")) in E.
    rewrite occurs_append in E. simpl in E.
    rewrite orb_true_r in E. discriminate E.
Defined.

(* ===================================================================== *)
(** * The replies of the /convert endpoint                                *)
(* ===================================================================== *)

Lemma extract_text_supported {Buffer : Type}
  (pdfParse mammoth_extractRawText : Buffer -> result string)
  (Buffer_toString : Buffer -> string) (f : UploadedFile Buffer) :
  extract_text pdfParse mammoth_extractRawText Buffer_toString f = Ok None <->
  supported (mimetype f) = false.
Proof.
  unfold extract_text, supported.
  destruct (String.eqb (mimetype f) "application/pdf"); cbn [orb].
  - destruct (pdfParse (buffer f)); cbn; split; discriminate.
  - destruct (String.eqb (mimetype f) docx_mimetype); cbn [orb].
    + destruct (mammoth_extractRawText (buffer f)); cbn; split; discriminate.
    + destruct (String.eqb (mimetype f) "application/msword"); cbn [orb].
      * destruct (mammoth_extractRawText (buffer f)); cbn; split;
          discriminate.
      * destruct (String.eqb (mimetype f) "text/plain"); split;
          solve [discriminate | reflexivity].
Qed.

(** A non-success reply of the endpoint makes [callChatGPTAPI] throw. *)
Lemma callChatGPTAPI_not_ok {JSONValue : Type}
  (JSON_parse : string -> option JSONValue) (response : Response)
  (v : JSONValue) :
  callChatGPTAPI JSON_parse response = Ok v -> ok response = true.
Proof.
  unfold callChatGPTAPI. destruct (ok response); [reflexivity|].
  cbn [negb]. destruct (json response); cbn; discriminate.
Qed.

Section ConvertFacts.

Context {Buffer JSONValue : Type}.
Context (JSON_parse : string -> option JSONValue).
Context (pdfParse mammoth_extractRawText : Buffer -> result string).
Context (Buffer_toString : Buffer -> string).
Context (fetch : string -> string -> result Response).
Context (generate : JSONValue -> result Buffer).
Context (res_set : list (string * string) -> result unit).
Context (engine_message : js_error -> string).

Local Abbreviation handler :=
  (convert JSON_parse pdfParse mammoth_extractRawText Buffer_toString fetch
     generate res_set engine_message).

Local Abbreviation extract :=
  (extract_text pdfParse mammoth_extractRawText Buffer_toString).

(** The handler past its two checks of the request. *)
Lemma convert_checked (req : Request Buffer) (f : UploadedFile Buffer)
  (key : string) :
  file req = Some f -> apiKey req = Some key -> key <> "" ->
  handler req
  = match
      extracted <- extract f ;;
      match extracted with
      | None => Ok (json_reply 400 "Unsupported file type")
      | Some resumeText =>
          resumeData <-
            (response <- fetch key resumeText ;;
             callChatGPTAPI JSON_parse response) ;;
          docBuffer <- generate resumeData ;;
          _ <- res_set (download_headers f) ;;
          Ok (send_reply (download_headers f) docBuffer)
      end
    with
    | Ok reply => reply
    | Throw e => json_reply 500 (message_of engine_message e)
    end.
Proof.
  intros Hf Hk Hne. unfold convert. rewrite Hf, Hk.
  unfold truthy. destruct (String.eqb_spec key ""); [contradiction|].
  reflexivity.
Qed.

Lemma convert_supported_status (req : Request Buffer)
  (f : UploadedFile Buffer) (key : string) :
  file req = Some f -> apiKey req = Some key -> key <> "" ->
  supported (mimetype f) = true ->
  reply_status (handler req) = 200 \/ reply_status (handler req) = 500.
Proof.
  intros Hf Hk Hne Hs. rewrite (convert_checked req f key Hf Hk Hne).
  pose proof (extract_text_supported pdfParse mammoth_extractRawText
                Buffer_toString f) as Hsup.
  destruct (extract f) as [[text|]|e]; cbn [bind].
  - destruct (fetch key text) as [response|e]; cbn [bind]; [|now right].
    destruct (callChatGPTAPI JSON_parse response) as [data|e]; cbn [bind];
      [|now right].
    destruct (generate data); cbn [bind]; [|now right].
    destruct (res_set (download_headers f)); cbn; auto.
  - rewrite (proj1 Hsup eq_refl) in Hs. discriminate Hs.
  - now right.
Qed.

(** X14. The endpoint answers 400 exactly for a request without a file,
    for a request whose API key is missing or empty, and for a file whose
    media type is none of PDF, the two Word types and plain text.  The
    checks run in this order: the missing file is reported even when the
    key is missing too, and the key before the media type.  Every reply
    has the status 200, 400 or 500. *)
Theorem convert_bad_request (req : Request Buffer) :
  (file req = None -> handler req = json_reply 400 "No file uploaded") /\
  (forall f,
      file req = Some f ->
      apiKey req = None \/ apiKey req = Some "" ->
      handler req = json_reply 400 "API key is required") /\
  (forall f key,
      file req = Some f -> apiKey req = Some key -> key <> "" ->
      supported (mimetype f) = false ->
      handler req = json_reply 400 "Unsupported file type") /\
  (reply_status (handler req) = 400 <->
   file req = None \/
   exists f, file req = Some f /\
             (apiKey req = None \/ apiKey req = Some "" \/
              supported (mimetype f) = false)) /\
  (reply_status (handler req) = 200 \/ reply_status (handler req) = 400 \/
   reply_status (handler req) = 500).
Proof.
  assert (Hfile : file req = None ->
                  handler req = json_reply 400 "No file uploaded").
  { intros H. unfold convert. now rewrite H. }
  assert (Hkey : forall f,
             file req = Some f ->
             apiKey req = None \/ apiKey req = Some "" ->
             handler req = json_reply 400 "API key is required").
  { intros f Hf [H|H]; unfold convert; now rewrite Hf, H. }
  assert (Htype : forall f key,
             file req = Some f -> apiKey req = Some key -> key <> "" ->
             supported (mimetype f) = false ->
             handler req = json_reply 400 "Unsupported file type").
  { intros f key Hf Hk Hne Hs. rewrite (convert_checked req f key Hf Hk Hne).
    apply (extract_text_supported pdfParse mammoth_extractRawText
             Buffer_toString) in Hs.
    now rewrite Hs. }
  split; [exact Hfile|]. split; [exact Hkey|]. split; [exact Htype|].
  destruct (file req) as [f|] eqn:Hf.
  2:{ rewrite (Hfile eq_refl). cbn. split; [|auto]. split; auto. }
  destruct (apiKey req) as [key|] eqn:Hk.
  2:{ rewrite (Hkey f eq_refl (or_introl eq_refl)). cbn.
      split; [|auto]. split; [|reflexivity].
      intros _. right. exists f. auto. }
  destruct (String.eqb_spec key "") as [->|Hne].
  { rewrite (Hkey f eq_refl (or_intror eq_refl)). cbn.
    split; [|auto]. split; [|reflexivity].
    intros _. right. exists f. auto. }
  destruct (supported (mimetype f)) eqn:Hs.
  - destruct (convert_supported_status req f key Hf Hk Hne Hs) as [H|H];
      rewrite H; (split; [|auto]); (split; [discriminate|]);
      intros [E|(f' & E & [E'|[E'|E']])]; try discriminate; congruence.
  - rewrite (Htype f key eq_refl eq_refl Hne Hs). cbn.
    split; [|auto]. split; [|reflexivity].
    intros _. right. exists f. auto.
Qed.

(** X15. The endpoint sends a document exactly when every step succeeded:
    the request has a file and a non-empty key, the text of the file was
    extracted, the completion endpoint answered with a success and its
    reply was structured, the document was generated from it, and
    [res.set] accepted the headers.  The body is then that document, and
    the headers name the Word media type and the download
    [<name without extension>_converted.docx].  No other request gets a
    document; when all the steps before it succeeded and [res.set] throws
    (an upload name with a character that a header value cannot carry),
    the answer is the status 500 with the message of that exception. *)
Theorem convert_success (req : Request Buffer) :
  (forall headers body,
      handler req = send_reply headers body <->
      exists f key resumeText response resumeData,
        file req = Some f /\ apiKey req = Some key /\ key <> "" /\
        extract f = Ok (Some resumeText) /\
        fetch key resumeText = Ok response /\ ok response = true /\
        callChatGPTAPI JSON_parse response = Ok resumeData /\
        generate resumeData = Ok body /\
        headers
        = [ ("Content-Type", docx_mimetype);
            ("Content-Disposition",
             "attachment; filename="
             +++ quoted (strip_extension (originalname f)
                         +++ "_converted.docx")) ] /\
        res_set headers = Ok tt) /\
  (forall f key resumeText response resumeData body e,
      file req = Some f -> apiKey req = Some key -> key <> "" ->
      extract f = Ok (Some resumeText) ->
      fetch key resumeText = Ok response ->
      callChatGPTAPI JSON_parse response = Ok resumeData ->
      generate resumeData = Ok body ->
      res_set
        [ ("Content-Type", docx_mimetype);
          ("Content-Disposition",
           "attachment; filename="
           +++ quoted (strip_extension (originalname f)
                       +++ "_converted.docx")) ]
      = Throw e ->
      handler req = json_reply 500 (message_of engine_message e)).
Proof.
  split.
  - intros headers body. split.
    + unfold convert.
      destruct (file req) as [f|]; [|discriminate].
      destruct (apiKey req) as [key|]; [|discriminate].
      unfold truthy.
      destruct (String.eqb_spec key "") as [E|Hne]; [discriminate|].
      cbn [negb].
      destruct (extract f) as [[text|]|e] eqn:He; cbn [bind];
        try discriminate.
      destruct (fetch key text) as [response|e] eqn:Hfetch; cbn [bind];
        [|discriminate].
      destruct (callChatGPTAPI JSON_parse response) as [data|e] eqn:Hcall;
        cbn [bind]; [|discriminate].
      destruct (generate data) as [doc|e] eqn:Hgen; cbn [bind];
        [|discriminate].
      destruct (res_set (download_headers f)) as [[]|e] eqn:Hset;
        cbn [bind]; [|discriminate].
      intros H. injection H as <- <-.
      exists f, key, text, response, data.
      repeat split; try assumption; try reflexivity.
      now apply (callChatGPTAPI_not_ok JSON_parse response data).
    + intros (f & key & text & response & data
              & Hf & Hk & Hne & He & Hfetch & _ & Hcall & Hgen & -> & Hset).
      rewrite (convert_checked req f key Hf Hk Hne), He. cbn [bind].
      rewrite Hfetch. cbn [bind]. rewrite Hcall. cbn [bind].
      rewrite Hgen. cbn [bind]. unfold download_headers.
      now rewrite Hset.
  - intros f key text response data body e Hf Hk Hne He Hfetch Hcall Hgen
      Hset.
    rewrite (convert_checked req f key Hf Hk Hne), He. cbn [bind].
    rewrite Hfetch. cbn [bind]. rewrite Hcall. cbn [bind].
    rewrite Hgen. cbn [bind]. unfold download_headers.
    now rewrite Hset.
Qed.

(** X16. A failure past the checks of the request is answered with the
    status 500 and the message of the exception of the first step that
    failed: the extraction of the text, the request to the completion
    endpoint, the structuring of its reply, or the generation of the
    document.  The message of an [Error] goes out as it is, so a
    non-success reply of the completion endpoint reaches the caller as
    "ChatGPT API error: " followed by the upstream message, or by "HTTP "
    and the upstream status when there is no message. *)
Theorem convert_failure (req : Request Buffer) (f : UploadedFile Buffer)
  (key : string) :
  file req = Some f -> apiKey req = Some key -> key <> "" ->
  (forall e,
      extract f = Throw e ->
      handler req = json_reply 500 (message_of engine_message e)) /\
  (forall resumeText e,
      extract f = Ok (Some resumeText) ->
      fetch key resumeText = Throw e ->
      handler req = json_reply 500 (message_of engine_message e)) /\
  (forall resumeText response e,
      extract f = Ok (Some resumeText) ->
      fetch key resumeText = Ok response ->
      callChatGPTAPI JSON_parse response = Throw e ->
      handler req = json_reply 500 (message_of engine_message e)) /\
  (forall resumeText response errorData,
      extract f = Ok (Some resumeText) ->
      fetch key resumeText = Ok response ->
      ok response = false ->
      json response = Ok errorData ->
      handler req
      = json_reply 500
          ("ChatGPT API error: "
           +++ or_default (opt_chain (error errorData) message)
                 ("HTTP " +++ Number_toString (status response)))) /\
  (forall resumeText response resumeData e,
      extract f = Ok (Some resumeText) ->
      fetch key resumeText = Ok response ->
      callChatGPTAPI JSON_parse response = Ok resumeData ->
      generate resumeData = Throw e ->
      handler req = json_reply 500 (message_of engine_message e)).
Proof.
  intros Hf Hk Hne. rewrite (convert_checked req f key Hf Hk Hne).
  split; [|split; [|split; [|split]]].
  - now intros e ->.
  - intros text e -> Hfetch. cbn [bind]. now rewrite Hfetch.
  - intros text response e -> Hfetch Hcall. cbn [bind].
    rewrite Hfetch. cbn [bind]. now rewrite Hcall.
  - intros text response errorData -> Hfetch Hok Hjson. cbn [bind].
    rewrite Hfetch. cbn [bind]. unfold callChatGPTAPI.
    rewrite Hok, Hjson. reflexivity.
  - intros text response data e -> Hfetch Hcall Hgen. cbn [bind].
    rewrite Hfetch. cbn [bind]. rewrite Hcall. cbn [bind].
    now rewrite Hgen.
Qed.

End ConvertFacts.

Lemma convert_bad_request_witness :
  sample_convert rejecting (mkRequest None None)
  = json_reply 400 "No file uploaded" /\
  sample_convert rejecting
    (mkRequest (Some "")
       (Some (mkUploadedFile "cv.pdf" "application/pdf" "%PDF")))
  = json_reply 400 "API key is required" /\
  sample_convert rejecting
    (mkRequest (Some "sk-test")
       (Some (mkUploadedFile "cv.png" "image/png" "PNG")))
  = json_reply 400 "Unsupported file type".
Proof.
  split; [|split].
  - apply (proj1 (convert_bad_request Json.parse (fun b => Ok b)
                    (fun b => Ok b) (fun b => b) rejecting
                    (fun _ => Ok "PK") node_res_set
                    (fun _ => "engine message")
                    (mkRequest None None))).
    reflexivity.
  - apply (proj1 (proj2 (convert_bad_request Json.parse (fun b => Ok b)
                           (fun b => Ok b) (fun b => b) rejecting
                           (fun _ => Ok "PK") node_res_set
                           (fun _ => "engine message")
                           (mkRequest (Some "")
                              (Some (mkUploadedFile "cv.pdf"
                                       "application/pdf" "%PDF")))))
             (mkUploadedFile "cv.pdf" "application/pdf" "%PDF") eq_refl).
    right. reflexivity.
  - apply (proj1 (proj2 (proj2
             (convert_bad_request Json.parse (fun b => Ok b)
                (fun b => Ok b) (fun b => b) rejecting
                (fun _ => Ok "PK") node_res_set
                (fun _ => "engine message")
                (mkRequest (Some "sk-test")
                   (Some (mkUploadedFile "cv.png" "image/png" "PNG"))))))
             (mkUploadedFile "cv.png" "image/png" "PNG") "sk-test"
             eq_refl eq_refl);
      [discriminate|reflexivity].
Defined.

Lemma convert_success_witness :
  sample_convert (answering wrapped_reply) cv_upload
  = send_reply
      [ ("Content-Type", docx_mimetype);
        ("Content-Disposition",
         "attachment; filename=" +++ quoted "jane.doe_converted.docx") ]
      "PK" /\
  sample_convert (answering wrapped_reply) euro_upload
  = json_reply 500 "engine message".
Proof.
  split.
  - apply (proj2 (proj1 (convert_success Json.parse (fun b => Ok b)
                           (fun b => Ok b) (fun b => b)
                           (answering wrapped_reply) (fun _ => Ok "PK")
                           node_res_set (fun _ => "engine message")
                           cv_upload) _ "PK")).
    exists (mkUploadedFile "jane.doe.txt" "text/plain" "Jane Doe, engineer").
    exists "sk-test", "Jane Doe, engineer", (completion wrapped_reply).
    exists (Json.Object [("name", Json.Str "JANE DOE")]).
    repeat split; solve [reflexivity | discriminate].
  - apply (proj2 (convert_success Json.parse (fun b => Ok b)
                    (fun b => Ok b) (fun b => b)
                    (answering wrapped_reply) (fun _ => Ok "PK")
                    node_res_set (fun _ => "engine message")
                    euro_upload)
             (mkUploadedFile
                (String (ascii_of_nat 226)
                   (String (ascii_of_nat 130)
                      (String (ascii_of_nat 172) ".txt")))
                "text/plain" "Jane Doe, engineer")
             "sk-test" "Jane Doe, engineer" (completion wrapped_reply)
             (Json.Object [("name", Json.Str "JANE DOE")]) "PK" TypeError);
      solve [reflexivity | discriminate].
Defined.

Lemma convert_failure_witness :
  sample_convert rejecting cv_upload
  = json_reply 500 "ChatGPT API error: Incorrect API key provided.".
Proof.
  apply (proj1 (proj2 (proj2 (proj2
           (convert_failure Json.parse (fun b => Ok b) (fun b => Ok b)
              (fun b => b) rejecting (fun _ => Ok "PK") node_res_set
              (fun _ => "engine message") cv_upload
              (mkUploadedFile "jane.doe.txt" "text/plain"
                 "Jane Doe, engineer")
              "sk-test" eq_refl eq_refl
              (fun H => eq_ind "sk-test"
                          (fun s => match s with
                                    | EmptyString => False
                                    | String _ _ => True
                                    end) I "" H)))))
           "Jane Doe, engineer" unauthorized
           (mkResponseBody
              (Some (mkApiError (Some "Incorrect API key provided.")))
              None)
           eq_refl eq_refl eq_refl eq_refl).
Defined.

Lemma centred_and_underlined_witness :
  exists blocks b,
    render jane_doe = Ok blocks /\
    nth_error blocks 2 = Some b /\
    alignment b = Some CENTER /\
    exists r, In r (children b) /\ underline r = true.
Proof.
  destruct (centred_and_underlined jane_doe) as (blocks & Hrender & H).
  pose proof Hrender as Hlayout. rewrite render_layout in Hlayout.
  injection Hlayout as <-.
  exists (layout jane_doe).
  exists (mkParagraph (Some CENTER) (mkSpacing None (Some 200)) None
            [mkTextRun "email@example.com" 22 false true]).
  split; [exact Hrender|]. split; [reflexivity|].
  destruct (H 2%nat _ eq_refl) as [Hc Hu].
  split; [apply Hc; lia | apply Hu; reflexivity].
Defined.
